(** * whatsapp-sender: a shallow embedding of [src/index.js]

    The development follows the source file top to bottom: the string
    primitives the code relies on, the [WhatsAppBulkSender] class
    ([readContactsFromCSV], [formatPhoneNumber], [sendMessage],
    [sendBulkMessages]), the lazily created [senderInstance] behind
    [initWhatsAppClient], and the [/send-message] request handler.

    JavaScript strings are modelled by [string]; the code only ever inspects
    the ASCII characters [0]..[9], [$], [&], the two quotes and the letters of
    the placeholder, so the width of a code unit plays no role.  The transport
    session ([whatsapp-web.js]'s [Client]) and the CSV parser are external: the
    first is an interface ([Session]) the theorems quantify over, the second
    hands over its rows as finite maps from column name to cell. *)

From Stdlib Require Import ZArith Ascii String List Bool Lia.
From stdpp Require Import base option list strings gmap relations.

Open Scope Z_scope.

(** ** String primitives of the JavaScript runtime *)

Module JsString.

(** [\d]: the ten ASCII digits. *)
Definition isDigit (c : ascii) : bool :=
  let n := nat_of_ascii c in (Nat.leb 48 n && Nat.leb n 57)%bool.

(** [s.replace(/\D/g, '')]: every character that is not a digit goes. *)
Fixpoint removeNonDigits (s : string) : string :=
  match s with
  | EmptyString => EmptyString
  | String c t =>
      if isDigit c then String c (removeNonDigits t) else removeNonDigits t
  end.

(** [s.startsWith(p)]. *)
Definition startsWith (s p : string) : bool := String.prefix p s.

(** [s.substring(n)] for [0 <= n]: the string without its first [n]
    characters (the empty string when there are fewer). *)
Fixpoint substringFrom (n : nat) (s : string) : string :=
  match n, s with
  | O, _ => s
  | S _, EmptyString => EmptyString
  | S m, String _ t => substringFrom m t
  end.

(** [s.substring(0, n)]. *)
Fixpoint substringTo (n : nat) (s : string) : string :=
  match n, s with
  | O, _ => EmptyString
  | S _, EmptyString => EmptyString
  | S m, String c t => String c (substringTo m t)
  end.

(** [s.indexOf(p)], with [None] for [-1]. *)
Fixpoint indexOf (p s : string) : option nat :=
  if String.prefix p s then Some O
  else match s with
       | EmptyString => None
       | String _ t => option_map S (indexOf p t)
       end.

(** The abstract operation GetSubstitution of the language standard, for a
    search value that is a string: there are no captures and no named
    groups, so [$$] stands for a dollar sign, [$&] for the matched text,
    [$`] for what precedes the match, [$'] for what follows it, and every
    other dollar sign is copied as it is. *)
Fixpoint getSubstitution (matched str : string) (position : nat)
         (template : string) : string :=
  match template with
  | EmptyString => EmptyString
  | String c rest =>
      if Ascii.eqb c "$" then
        match rest with
        | EmptyString => String c EmptyString
        | String d rest' =>
            if Ascii.eqb d "$" then
              String "$" (getSubstitution matched str position rest')
            else if Ascii.eqb d "&" then
              matched +:+ getSubstitution matched str position rest'
            else if Ascii.eqb d "`" then
              substringTo position str
                +:+ getSubstitution matched str position rest'
            else if Ascii.eqb d "'" then
              substringFrom (position + String.length matched) str
                +:+ getSubstitution matched str position rest'
            else String c (getSubstitution matched str position rest)
        end
      else String c (getSubstitution matched str position rest)
  end.

(** [str.replace(searchValue, replaceValue)] with two strings: only the
    first occurrence of [searchValue] is replaced, by the expansion of
    [replaceValue]. *)
Definition replace (str searchValue replaceValue : string) : string :=
  match indexOf searchValue str with
  | None => str
  | Some position =>
      substringTo position str
        +:+ getSubstitution searchValue str position replaceValue
        +:+ substringFrom (position + String.length searchValue) str
  end.

(** Truthiness of a string value: every string but the empty one. *)
Definition truthy (s : string) : bool :=
  match s with EmptyString => false | String _ _ => true end.

(** [a || b] where [a] is a string, [null] or [undefined] ([None]) and
    [b] a string. *)
Definition orString (a : option string) (b : string) : string :=
  match a with
  | Some s => if truthy s then s else b
  | None => b
  end.

(** [a || null]. *)
Definition orNull (a : option string) : option string :=
  match a with
  | Some s => if truthy s then Some s else None
  | None => None
  end.

(** Truthiness of a value that is a string, [null] or [undefined]. *)
Definition truthyOpt (a : option string) : bool :=
  match a with Some s => truthy s | None => false end.

End JsString.

(** ** The data model *)

(** A contact as [readContactsFromCSV] and the request handler build it. *)
Record Contact := mkContact {
  name : string;
  phone : string;
  message : option string   (* [null] is [None] *)
}.

(** An [Error] object, as the client and the runtime raise them.  The code
    reads nothing but its [message]. *)
Record JsError := mkError { error_message : string }.

(** What is thrown and caught.  A promise can be rejected with any value,
    and the code either passes a caught value on or reads its [message]:
    of an [Error] object that is a string, of [undefined] and [null] it
    cannot be read, of any other value it is [undefined]. *)
Inductive thrown : Type :=
| thrownError (e : JsError)
| thrownOther                  (* a value that has no [message] *)
| thrownNullish.               (* [undefined] or [null] *)
Coercion thrownError : JsError >-> thrown.

(** The TypeError of the runtime for reading a property of [undefined] or
    [null].  Its text stands for the engine's wording, which also names the
    value and the property. *)
Definition typeError : JsError :=
  mkError "Cannot read properties of undefined".

(** ** WhatsAppBulkSender.formatPhoneNumber *)

Definition formatPhoneNumber (phone : string) : string :=
  let cleaned := JsString.removeNonDigits phone in
  let cleaned :=
    if (negb (JsString.startsWith cleaned "62")
        && JsString.startsWith cleaned "0")%bool
    then "62" +:+ JsString.substringFrom 1 cleaned
    else if (negb (JsString.startsWith cleaned "62")
             && negb (JsString.startsWith cleaned "0"))%bool
    then "62" +:+ cleaned
    else cleaned in
  cleaned +:+ "@c.us".

(** ** Effects

    An asynchronous function is a state transformer that also writes a trace:
    it returns, throws, or never settles.  The trace is what the function
    itself did, in the order it did it. *)

Inductive completion (A : Type) : Type :=
| Returns (a : A)
| Throws (e : thrown)
| Hangs.
Arguments Returns {A} a.
Arguments Throws {A} e.
Arguments Hangs {A}.

Definition Eff (S E A : Type) : Type := S -> completion A * S * list E.

Definition ret {S E A} (a : A) : Eff S E A := fun s => (Returns a, s, []).

Definition bind {S E A B} (m : Eff S E A) (f : A -> Eff S E B) : Eff S E B :=
  fun s =>
    match m s with
    | (Returns a, s1, tr1) =>
        match f a s1 with (r, s2, tr2) => (r, s2, tr1 ++ tr2) end
    | (Throws e, s1, tr1) => (Throws e, s1, tr1)
    | (Hangs, s1, tr1) => (Hangs, s1, tr1)
    end.

Definition throw {S E A} (e : thrown) : Eff S E A := fun s => (Throws e, s, []).

Definition hang {S E A} : Eff S E A := fun s => (Hangs, s, []).

Definition get {S E} : Eff S E S := fun s => (Returns s, s, []).

Definition put {S E} (s : S) : Eff S E unit := fun _ => (Returns tt, s, []).

Definition emit {S E} (e : E) : Eff S E unit := fun s => (Returns tt, s, [e]).

(** [try { body } catch (error) { handler }]: what never settles is not caught. *)
Definition tryCatch {S E A} (body : Eff S E A) (handler : thrown -> Eff S E A)
  : Eff S E A :=
  fun s =>
    match body s with
    | (Throws e, s1, tr1) =>
        match handler e s1 with (r, s2, tr2) => (r, s2, tr1 ++ tr2) end
    | res => res
    end.

(** [error.message] for a caught value: a string, [undefined] ([None]), or
    a TypeError. *)
Definition readMessage {S E} (error : thrown) : Eff S E (option string) :=
  match error with
  | thrownError e => ret (Some (error_message e))
  | thrownOther => ret None
  | thrownNullish => throw typeError
  end.

(** A string or [undefined], as the console prints it. *)
Definition printed (v : option string) : string := default "undefined" v.

Declare Scope eff_scope.
Delimit Scope eff_scope with eff.
Notation "'let!' x := m 'in' k" := (bind m (fun x => k))
  (at level 10, x name, m at level 100, k at level 200,
   format "'[v' 'let!'  x  :=  m  'in' '/' k ']'") : eff_scope.
Notation "'do!' m 'then' k" := (bind m (fun _ => k))
  (at level 10, m at level 100, k at level 200,
   format "'[v' 'do!'  m  'then' '/' k ']'") : eff_scope.
Open Scope eff_scope.

(** What the program writes to the console. *)
Inductive LogLine : Type :=
| LogLoaded (n : nat)                       (* Loaded n contacts from CSV *)
| LogNoMessage (name phone : string)        (* No message provided for .. *)
| LogNotRegistered (name phone : string)    (* .. is not registered on WhatsApp *)
| LogSent (name phone : string)             (* Message sent to .. *)
| LogSendFailed (name phone reason : string)(* Failed to send message to .. *)
| LogNoContacts                             (* No contacts found in CSV file *)
| LogStarting (n : nat)                     (* Starting to send messages to n contacts... *)
| LogDelay (delay : Z)                      (* Delay between messages: .. *)
| LogProcessing (i n : nat) (name : string) (* [i/n] Processing .. *)
| LogWaiting (delay : Z)                    (* Waiting ..ms before next message... *)
| LogSummary (total successCount failureCount : nat) (* === SUMMARY === .. *)
| LogBulkError (e : thrown).                (* Error in bulk message sending: .. *)

(** What a [WhatsAppBulkSender] does, as seen from outside.  [ESleep] is
    the timer [sleep] sets, with the time it runs.  [EUncaught] is an
    ['error'] event nobody listens to: the runtime throws the error, nothing
    catches it, and the process ends.  [ECall] is a ghost event: it records
    that [sendMessage] was entered, with its arguments after defaulting. *)
Inductive event : Type :=
| EInitialize                               (* client.initialize() *)
| EGetNumberId (phone : string)             (* client.getNumberId(phone) *)
| ESendMessage (phone text : string)        (* client.sendMessage(phone, text) *)
| ESleep (ms : Z)                           (* a timer of ms milliseconds *)
| EConsole (l : LogLine)
| EUncaught (error : JsError)
| ECall (contact : Contact) (defaultMessage : string).

(** ** The transport session

    The requests the code makes of [this.client], with the state of the
    client before and after.  A request settles: it is fulfilled, or rejected
    with some value.  Readiness may never come. *)

Inductive settled (A : Type) : Type :=
| Fulfilled (a : A)
| Rejected (e : thrown).
Arguments Fulfilled {A} a.
Arguments Rejected {A} e.

Class Session (T : Type) : Type := {
  newClient : T;                                 (* new Client({...}) *)
  clientInitialize : T -> settled unit * T;      (* await client.initialize() *)
  clientInfo : T -> bool;                        (* client.info is set *)
  clientReady : T -> option T;                   (* the 'ready' event, if it ever fires *)
  clientGetNumberId : string -> T -> settled (option string) * T;
  clientSendMessage : string -> string -> T -> settled unit * T
}.

(** A row as the CSV parser emits it: the cells of the line, by column
    header.  A column the line does not have is not in the map. *)
Abbreviation Row := (gmap string string).

(** What reading the contact file comes to.  Two streams are at work: the
    one that reads the file, and the parser it is piped into, which is what
    [pipe] returns and what the three listeners are put on. *)
Inductive CsvFile : Type :=
| FileMissing (path : string)              (* fs.existsSync(filePath) is false *)
| FileRows (rows : list Row)               (* 'data' for each row, then 'end' *)
| FileBroken (rows : list Row) (error : JsError)
      (* 'data' rows, then 'error', all from the parser *)
| FileUnreadable (rows : list Row) (error : JsError).
      (* 'data' rows, then 'error' from the stream that reads the file *)

(** ** class WhatsAppBulkSender *)

(** The object: [this.client] and [this.contacts]. *)
Record Sender (T : Type) : Type := mkSender {
  client : T;
  contacts : list Contact
}.
Arguments mkSender {T} client contacts.
Arguments client {T} s.
Arguments contacts {T} s.

Definition setClient {T} (this : Sender T) (c : T) : Sender T :=
  mkSender c (contacts this).

Definition setContacts {T} (this : Sender T) (cs : list Contact) : Sender T :=
  mkSender (client this) cs.

(** The ['data'] handler of [readContactsFromCSV] (lines 60-69), as a
    function of the array it pushes to. *)
Definition onData (contacts : list Contact) (row : Row) : list Contact :=
  match row !! "phone" with
  | Some rowPhone =>
      if JsString.truthy rowPhone then
        contacts ++ [ {| name := JsString.orString (row !! "name") "Unknown";
                         phone := formatPhoneNumber rowPhone;
                         message := JsString.orNull (row !! "message") |} ]
      else contacts
  | None => contacts
  end.

Section WhatsAppBulkSender.

Context {T : Type} `{Session T}.

Abbreviation Method := (Eff (Sender T) event).

(** The promise of a request to [this.client] settles. *)
Definition settle {A} (call : T -> settled A * T) : Method A :=
  fun this =>
    match call (client this) with
    | (Fulfilled a, c) => (Returns a, setClient this c, [])
    | (Rejected e, c) => (Throws e, setClient this c, [])
    end.

(** A request to [this.client], awaited: the call, then its outcome. *)
Definition request {A} (ev : event) (call : T -> settled A * T) : Method A :=
  do! emit ev then settle call.

Definition consoleLog (l : LogLine) : Method unit := emit (EConsole l).

(** Lines 49-78.  The parser's ['error'] rejects the promise (line 74).
    The reading stream has no listener for its own ['error'], and [pipe]
    does not pass it on: the error is thrown where nothing catches it, the
    parser never ends, and the promise stays pending. *)
Definition readContactsFromCSV (file : CsvFile) : Method (list Contact) :=
  match file with
  | FileMissing path => throw (mkError ("CSV file not found: " +:+ path))
  | FileRows rows =>
      let contacts := foldl onData [] rows in
      do! consoleLog (LogLoaded (length contacts)) then
      ret contacts
  | FileBroken rows error => throw error
  | FileUnreadable rows error =>
      do! emit (EUncaught error) then
      hang
  end.

(** Lines 97-124.  [defaultMessage] is [None] when the argument is left
    out.  The handler of the [catch] reads [error.message] before it logs
    (line 121): what that read throws leaves the function. *)
Definition sendMessage (contact : Contact) (defaultMessage : option string)
  : Method bool :=
  let defaultMessage := default "" defaultMessage in
  do! emit (ECall contact defaultMessage) then
  tryCatch
    (let message := JsString.orString (message contact) defaultMessage in
     if negb (JsString.truthy message) then
       do! consoleLog (LogNoMessage (name contact) (phone contact)) then
       ret false
     else
       let personalizedMessage :=
         JsString.replace message "{name}" (name contact) in
       let! numberId := request (EGetNumberId (phone contact))
                          (clientGetNumberId (phone contact)) in
       match numberId with
       | None =>
           do! consoleLog (LogNotRegistered (name contact) (phone contact)) then
           ret false
       | Some _ =>
           do! request (ESendMessage (phone contact) personalizedMessage)
                 (clientSendMessage (phone contact) personalizedMessage) then
           do! consoleLog (LogSent (name contact) (phone contact)) then
           ret true
       end)
    (fun error =>
       let! reason := readMessage error in
       do! consoleLog (LogSendFailed (name contact) (phone contact)
                         (printed reason)) then
       ret false).

(** The time a timer set by [setTimeout(f, ms)] runs, for an integer [ms]:
    a delay below 1 or above 2^31 - 1 is set to 1. *)
Definition timerDelay (ms : Z) : Z :=
  if ((ms <? 1) || (2147483647 <? ms))%bool then 1 else ms.

(** Lines 185-187: [setTimeout(resolve, ms)], awaited. *)
Definition sleep (ms : Z) : Method unit := emit (ESleep (timerDelay ms)).

(** Lines 133-139: resolved at once when [this.client.info] is set,
    otherwise when the ['ready'] event fires. *)
Definition awaitReady : Method unit :=
  fun this =>
    if clientInfo (client this) then (Returns tt, this, [])
    else match clientReady (client this) with
         | Some c => (Returns tt, setClient this c, [])
         | None => (Hangs, this, [])
         end.

(** The [for] loop of lines 156-172, from index [i] on.  [fuel] bounds the
    number of iterations; a loop that is out of fuel with [i] still in range
    has not come to an end. *)
Fixpoint sendLoop (fuel : nat) (defaultMessage : string) (delay : Z)
         (i successCount failureCount : nat) : Method (nat * nat) :=
  let! this := get in
  if (Z.of_nat i <? Z.of_nat (length (contacts this))) then
    match fuel with
    | O => hang
    | S fuel' =>
        match contacts this !! i with
        | None => throw typeError
        | Some contact =>
            do! consoleLog (LogProcessing (i + 1) (length (contacts this))
                              (name contact)) then
            let! success := sendMessage contact (Some defaultMessage) in
            let successCount' :=
              if success then S successCount else successCount in
            let failureCount' :=
              if success then failureCount else S failureCount in
            let! this' := get in
            do! (if (Z.of_nat i <? Z.of_nat (length (contacts this')) - 1) then
                   do! consoleLog (LogWaiting delay) then sleep delay
                 else ret tt) then
            sendLoop fuel' defaultMessage delay (i + 1)
              successCount' failureCount'
        end
    end
  else ret (successCount, failureCount).

(** Lines 127-182.  It returns nothing; the counters go to the console. *)
Definition sendBulkMessages (file : CsvFile) (defaultMessage : option string)
           (delay : option Z) : Method unit :=
  let defaultMessage := default "" defaultMessage in
  let delay := default 2000 delay in
  tryCatch
    (do! request EInitialize clientInitialize then
     do! awaitReady then
     let! loaded := readContactsFromCSV file in
     let! this := get in
     do! put (setContacts this loaded) then
     let! this := get in
     if (length (contacts this) =? 0)%nat then
       consoleLog LogNoContacts
     else
       do! consoleLog (LogStarting (length (contacts this))) then
       do! consoleLog (LogDelay delay) then
       let! counts := sendLoop (length (contacts this)) defaultMessage delay
                        0 0 0 in
       let! this := get in
       consoleLog (LogSummary (length (contacts this))
                     (fst counts) (snd counts)))
    (fun error => consoleLog (LogBulkError error)).

End WhatsAppBulkSender.

(** ** The request gateway (lines 228-282) *)

(** The module's state: the variable [senderInstance], a reference or
    [undefined], and the objects [new WhatsAppBulkSender()] has made so far,
    each at the position that is its reference. *)
Record Server (T : Type) : Type := mkServer {
  senderInstance : option nat;
  heap : list (Sender T)
}.
Arguments mkServer {T} senderInstance heap.
Arguments senderInstance {T} s.
Arguments heap {T} s.

(** What the gateway does: it makes an object, or an object acts. *)
Inductive gevent : Type :=
| GNew (ref : nat)
| GOn (ref : nat) (e : event).

(** The body of a request, after [bodyParser.json()]. *)
Record Body := mkBody {
  body_name : option string;
  body_phone : option string;
  body_message : option string
}.

(** The answer: its status and the members of its JSON object. *)
Record Response := mkResponse {
  statusCode : Z;
  json : list (string * string)
}.

Section Gateway.

Context {T : Type} `{Session T}.

Abbreviation Handler := (Eff (Server T) gevent).

(** [new WhatsAppBulkSender()] (lines 7-18): a fresh client, no contacts. *)
Definition newSender : Handler nat :=
  fun srv =>
    let ref := length (heap srv) in
    (Returns ref,
     mkServer (senderInstance srv) (heap srv ++ [mkSender newClient []]),
     [GNew ref]).

(** [senderInstance = ref]. *)
Definition assignSenderInstance (ref : nat) : Handler unit :=
  fun srv => (Returns tt, mkServer (Some ref) (heap srv), []).

(** A method runs on the object behind a reference. *)
Definition on {A} (ref : nat) (m : Eff (Sender T) event A) : Handler A :=
  fun srv =>
    match heap srv !! ref with
    | None => (Throws typeError, srv, [])
    | Some this =>
        match m this with
        | (r, this', tr) =>
            (r, mkServer (senderInstance srv) (<[ref := this']> (heap srv)),
             map (GOn ref) tr)
        end
    end.

(** [senderInstance.m(...)]: the variable is read when the call is made. *)
Definition onSenderInstance {A} (m : Eff (Sender T) event A) : Handler A :=
  let! srv := get in
  match senderInstance srv with
  | None => throw typeError
  | Some ref => on ref m
  end.

(** Lines 238-250, for a caller that nothing interleaves with. *)
Definition initWhatsAppClient : Handler unit :=
  let! srv := get in
  match senderInstance srv with
  | Some _ => ret tt
  | None =>
      let! ref := newSender in
      do! assignSenderInstance ref then
      do! onSenderInstance (request EInitialize clientInitialize) then
      onSenderInstance awaitReady
  end.

Definition badRequest : Response :=
  mkResponse 400 [("error", "phone and message are required")].

Definition sentResponse (contact : Contact) : Response :=
  mkResponse 200 [("status", "success");
                  ("detail", "Message sent to " +:+ name contact)].

Definition failedResponse (contact : Contact) : Response :=
  mkResponse 500 [("status", "failed");
                  ("detail", "Failed to send message to " +:+ name contact)].

(** [{ error: reason }] with status 500; a member that is [undefined] is
    left out of the JSON text. *)
Definition errorResponse (reason : option string) : Response :=
  mkResponse 500 match reason with
                 | Some m => [("error", m)]
                 | None => []
                 end.

(** Lines 255-274: the handler, once line 254 has taken [name], [phone] and
    [message] from the body.  The guard [!phone || !message] is written as
    the match that gives the two strings their names.  The handler of the
    [catch] reads [error.message] (line 272): what that read throws leaves
    the handler. *)
Definition postSendMessage (body : Body) : Handler Response :=
  match body_phone body, body_message body with
  | Some phone, Some message =>
      if (negb (JsString.truthy phone) || negb (JsString.truthy message))%bool
      then ret badRequest
      else
        tryCatch
          (do! initWhatsAppClient then
           let contact :=
             {| name := JsString.orString (body_name body) "Unknown";
                phone := formatPhoneNumber phone;
                message := Some message |} in
           let! success := onSenderInstance (sendMessage contact None) in
           if success then ret (sentResponse contact)
           else ret (failedResponse contact))
          (fun error =>
             let! reason := readMessage error in
             ret (errorResponse reason))
  | _, _ => ret badRequest
  end.


End Gateway.

(** ** Calls of [initWhatsAppClient] that interleave

    The runtime runs one function at a time and switches at an [await] only.
    A call of [initWhatsAppClient] therefore runs in at most three pieces:
    from the call to [await ...initialize()], from there to the wait for
    ['ready'], and the return.  Between the pieces other calls may run. *)

(** Where a call of [initWhatsAppClient] stands. *)
Inductive Caller : Type :=
| AwaitingInitialize          (* at line 241 *)
| AwaitingReady               (* at line 246, for the event *)
| Returned
| Raised (e : thrown).

Record System (T : Type) : Type := mkSystem {
  server : Server T;
  callers : list Caller;      (* the calls made so far, in the order made *)
  history : list gevent
}.
Arguments mkSystem {T} server callers history.
Arguments server {T} s.
Arguments callers {T} s.
Arguments history {T} s.

Section Interleaving.

Context {T : Type} `{Session T}.

Abbreviation Handler := (Eff (Server T) gevent).

(** Lines 239-241: from the call to the first [await]. *)
Definition initEnter : Handler Caller :=
  let! srv := get in
  match senderInstance srv with
  | Some _ => ret Returned
  | None =>
      let! ref := newSender in
      do! assignSenderInstance ref then
      do! onSenderInstance (emit EInitialize) then
      ret AwaitingInitialize
  end.

(** Lines 241-248: [initialize()] has settled; the executor of the promise
    looks at [senderInstance.client.info]. *)
Definition initResume : Handler Caller :=
  do! onSenderInstance (settle clientInitialize) then
  let! info := onSenderInstance
                 (fun this => (Returns (clientInfo (client this)), this, [])) in
  if (info : bool) then ret Returned else ret AwaitingReady.

(** The ['ready'] event reaches the listener of line 246. *)
Definition readyFires : Handler Caller :=
  do! onSenderInstance
        (fun this =>
           match clientReady (client this) with
           | Some c => (Returns tt, setClient this c, [])
           | None => (Hangs, this, [])
           end) then
  ret Returned.

(** How a piece that ran leaves its caller. *)
Definition landed (r : completion Caller) : option Caller :=
  match r with
  | Returns c => Some c
  | Throws e => Some (Raised e)
  | Hangs => None
  end.

Inductive step : System T -> System T -> Prop :=
| step_call sys r srv tr c :
    initEnter (server sys) = (r, srv, tr) ->
    landed r = Some c ->
    step sys (mkSystem srv (callers sys ++ [c]) (history sys ++ tr))
| step_initialized sys k r srv tr c :
    callers sys !! k = Some AwaitingInitialize ->
    initResume (server sys) = (r, srv, tr) ->
    landed r = Some c ->
    step sys (mkSystem srv (<[k := c]> (callers sys)) (history sys ++ tr))
| step_ready sys k r srv tr c :
    callers sys !! k = Some AwaitingReady ->
    readyFires (server sys) = (r, srv, tr) ->
    landed r = Some c ->
    step sys (mkSystem srv (<[k := c]> (callers sys)) (history sys ++ tr))
| step_deliver sys k contact r srv tr :
    callers sys !! k = Some Returned ->
    onSenderInstance (sendMessage contact None) (server sys) = (r, srv, tr) ->
    step sys (mkSystem srv (callers sys) (history sys ++ tr)).

(** The pieces of one call, run with nothing in between. *)
Definition initUninterrupted : Handler unit :=
  let! c := initEnter in
  match c with
  | AwaitingInitialize =>
      let! c := initResume in
      match c with
      | AwaitingReady => do! readyFires then ret tt
      | _ => ret tt
      end
  | _ => ret tt
  end.

(** The module has just been loaded. *)
Definition boot : System T := mkSystem (mkServer None []) [] [].

End Interleaving.

(** Counting in a history. *)
Definition isNew (g : gevent) : bool :=
  match g with GNew _ => true | GOn _ _ => false end.

Definition isInitialize (g : gevent) : bool :=
  match g with GOn _ EInitialize => true | _ => false end.

(** ** A session to run the code on

    One number is on WhatsApp and can be reached, a second is on WhatsApp but
    sending to it fails, asking for a third fails; every other number is not
    registered.  The client remembers what it has sent. *)

Record FakeClient := mkFake {
  fake_info : bool;
  fake_sent : list (string * string)
}.

Definition fakeGetNumberId (phone : string) (c : FakeClient)
  : settled (option string) * FakeClient :=
  if String.eqb phone "6281234567@c.us" then (Fulfilled (Some phone), c)
  else if String.eqb phone "6289999999@c.us" then (Fulfilled (Some phone), c)
  else if String.eqb phone "6280000000@c.us"
  then (Rejected (mkError "Evaluation failed"), c)
  else (Fulfilled None, c).

Definition fakeSendMessage (phone text : string) (c : FakeClient)
  : settled unit * FakeClient :=
  if String.eqb phone "6289999999@c.us"
  then (Rejected (mkError "Protocol error"), c)
  else (Fulfilled tt, mkFake (fake_info c) (fake_sent c ++ [(phone, text)])).

#[export] Instance fakeSession : Session FakeClient := {|
  newClient := mkFake false [];
  clientInitialize c := (Fulfilled tt, c);
  clientInfo := fake_info;
  clientReady c := Some (mkFake true (fake_sent c));
  clientGetNumberId := fakeGetNumberId;
  clientSendMessage := fakeSendMessage
|}.

Definition fakeSender : Sender FakeClient := mkSender newClient [].

(** Four contacts for it: one that can be reached, one the send to which
    fails, one the check of which fails, one that is not registered. *)
Definition ann : Contact := mkContact "Ann" "6281234567@c.us" None.
Definition bob : Contact := mkContact "Bob" "6289999999@c.us" (Some "Yo {name}").
Definition cy : Contact := mkContact "Cy" "6280000000@c.us" None.
Definition dee : Contact := mkContact "Dee" "6285555555@c.us" None.

(** Two calls on that session: the second is made while the first waits for
    [initialize()]; then the first goes on and the session gets ready. *)
Definition started : Server FakeClient :=
  mkServer (Some 0%nat) [mkSender (mkFake false []) []].

Definition secondCallMade : System FakeClient :=
  mkSystem started [AwaitingInitialize; Returned]
    [GNew 0; GOn 0 EInitialize].

Definition bothReturned : System FakeClient :=
  mkSystem (mkServer (Some 0%nat) [mkSender (mkFake true []) []])
    [Returned; Returned] [GNew 0; GOn 0 EInitialize].

(** Requests: one with all it needs but the name, one without a phone. *)
Definition greeting : Body :=
  mkBody None (Some "0812-345-67") (Some "Hi {name}, hi {name}").

Definition noPhone : Body := mkBody (Some "Ann") None (Some "Hi").

(** The module as loaded, on that session. *)
Definition loaded : Server FakeClient := mkServer None [].

(** ** The vocabulary of the specification

    What the properties below are stated with.  [PhoneNormalizer] and
    [nullish] follow the wording of the specification, not the code; the
    theorems compare them with the code. *)

Module PhoneNormalizer.

Definition countryCode : string := "62".
Definition trunkPrefix : ascii := "0"%char.
Definition addressSuffix : string := "@c.us".

(** Strip every non-digit character. *)
Definition strip (raw : string) : string :=
  string_of_list_ascii (List.filter JsString.isDigit (list_ascii_of_string raw)).

(** The digits of the address: unchanged when they start with the country
    code; with the leading trunk prefix replaced by the country code when
    they start with it; with the country code prepended otherwise. *)
Definition digits (raw : string) : string :=
  let d := strip raw in
  if String.prefix countryCode d then d
  else match d with
       | String c rest =>
           if Ascii.eqb c trunkPrefix then countryCode +:+ rest
           else countryCode +:+ d
       | EmptyString => countryCode +:+ d
       end.

Definition normalize (raw : string) : string := digits raw +:+ addressSuffix.

End PhoneNormalizer.

(** Only digits. *)
Fixpoint allDigits (s : string) : bool :=
  match s with
  | EmptyString => true
  | String c t => (JsString.isDigit c && allDigits t)%bool
  end.

(** The specification's [a ?? b]: [b] only when [a] is [null]. *)
Definition nullish (a : option string) (b : string) : string :=
  match a with Some s => s | None => b end.

(** The first occurrence of [placeholder] in [template] gives way to
    [replacement], taken as it is. *)
Fixpoint replaceFirst (placeholder replacement template : string) : string :=
  if String.prefix placeholder template then
    replacement
      +:+ JsString.substringFrom (String.length placeholder) template
  else match template with
       | EmptyString => EmptyString
       | String c t => String c (replaceFirst placeholder replacement t)
       end.

(** A string without a dollar sign. *)
Fixpoint dollarFree (s : string) : bool :=
  match s with
  | EmptyString => true
  | String c t => (negb (Ascii.eqb c "$") && dollarFree t)%bool
  end.

(** Kinds of events. *)
Definition isCall (e : event) : bool :=
  match e with ECall _ _ => true | _ => false end.

Definition isSleep (e : event) : bool :=
  match e with ESleep _ => true | _ => false end.

Definition isCallOrSleep (e : event) : bool := (isCall e || isSleep e)%bool.

(** The session is asked for something. *)
Definition isTransport (e : event) : bool :=
  match e with
  | EInitialize | EGetNumberId _ | ESendMessage _ _ => true
  | _ => false
  end.

Definition isSummary (e : event) : bool :=
  match e with EConsole (LogSummary _ _ _) => true | _ => false end.

(** The calls of the delivery primitive for a list of contacts, one after
    the other, with a pause between two of them and none at the end. *)
Fixpoint paced (defaultMessage : string) (delay : Z) (cs : list Contact)
  : list event :=
  match cs with
  | [] => []
  | c :: rest =>
      match rest with
      | [] => [ECall c defaultMessage]
      | _ :: _ =>
          ECall c defaultMessage :: ESleep delay
            :: paced defaultMessage delay rest
      end
  end.

(** A row the contact source accepts: it has a phone cell that is not
    empty. *)
Definition carriesPhone (row : Row) : bool :=
  match row !! "phone" with
  | Some p => negb (String.eqb p "")
  | None => false
  end.

(** The contact emitted for a row: the phone cell normalized; the name and
    the message of the row when it has them, ["Unknown"] and [null] when
    the cells are absent or empty. *)
Definition emittedFor (row : Row) (c : Contact) : Prop :=
  (exists p, row !! "phone" = Some p /\ p <> "" /\ phone c = formatPhoneNumber p)
  /\ (row !! "name" = None \/ row !! "name" = Some "" -> name c = "Unknown")
  /\ (forall n, row !! "name" = Some n -> n <> "" -> name c = n)
  /\ (row !! "message" = None \/ row !! "message" = Some "" -> message c = None)
  /\ (forall m, row !! "message" = Some m -> m <> "" -> message c = Some m).

(** An address of the transport: digits, then the suffix. *)
Definition transportAddress (s : string) : Prop :=
  exists D, s = D +:+ "@c.us" /\ allDigits D = true.

Section Delivery.

Context {T : Type} `{Session T}.

(** A rejection reaches the [catch] of [sendMessage]: the outcome, and the
    line written if there is one. *)
Definition caught (contact : Contact) (e : thrown)
  : completion bool * list event :=
  match e with
  | thrownError err =>
      (Returns false,
       [EConsole (LogSendFailed (name contact) (phone contact)
                    (error_message err))])
  | thrownOther =>
      (Returns false,
       [EConsole (LogSendFailed (name contact) (phone contact) "undefined")])
  | thrownNullish => (Throws typeError, [])
  end.

(** One delivery, told without the machinery: the outcome, the client
    afterwards and what happened after the call was entered. *)
Definition delivery (contact : Contact) (defaultMessage : string) (c : T)
  : completion bool * T * list event :=
  let text := JsString.orString (message contact) defaultMessage in
  if JsString.truthy text then
    match clientGetNumberId (phone contact) c with
    | (Rejected e, c1) =>
        ((caught contact e).1, c1,
         EGetNumberId (phone contact) :: (caught contact e).2)
    | (Fulfilled None, c1) =>
        (Returns false, c1,
         [EGetNumberId (phone contact);
          EConsole (LogNotRegistered (name contact) (phone contact))])
    | (Fulfilled (Some _), c1) =>
        let personalized := JsString.replace text "{name}" (name contact) in
        match clientSendMessage (phone contact) personalized c1 with
        | (Rejected e, c2) =>
            ((caught contact e).1, c2,
             EGetNumberId (phone contact)
               :: ESendMessage (phone contact) personalized
               :: (caught contact e).2)
        | (Fulfilled _, c2) =>
            (Returns true, c2,
             [EGetNumberId (phone contact);
              ESendMessage (phone contact) personalized;
              EConsole (LogSent (name contact) (phone contact))])
        end
    end
  else
    (Returns false, c,
     [EConsole (LogNoMessage (name contact) (phone contact))]).

(** The session faults during a delivery, with [e]: it rejects the question
    whether the number is registered, or it answers yes and rejects the
    send. *)
Definition faultsWith (contact : Contact) (defaultMessage : string) (c : T)
           (e : thrown) : Prop :=
  let text := JsString.orString (message contact) defaultMessage in
  JsString.truthy text = true /\
  ((exists c1, clientGetNumberId (phone contact) c = (Rejected e, c1)) \/
   (exists id c1 c2,
      clientGetNumberId (phone contact) c = (Fulfilled (Some id), c1) /\
      clientSendMessage (phone contact)
        (JsString.replace text "{name}" (name contact)) c1 = (Rejected e, c2))).

(** No check and no send is ever rejected with [undefined] or [null]. *)
Definition rejectsWithValue : Prop :=
  (forall p c c1, clientGetNumberId p c <> (Rejected thrownNullish, c1))
  /\ (forall p text c c1,
        clientSendMessage p text c <> (Rejected thrownNullish, c1)).

End Delivery.
Arguments rejectsWithValue T {_}.

(** The variable [senderInstance], when set, refers to an object that
    exists. *)
Definition bound {T} (srv : Server T) : Prop :=
  forall ref, senderInstance srv = Some ref -> is_Some (heap srv !! ref).

(** The contact the request handler builds from a body. *)
Definition requestContact (body : Body) (phone message : string) : Contact :=
  {| name := JsString.orString (body_name body) "Unknown";
     phone := formatPhoneNumber phone;
     message := Some message |}.

(** What the [catch] of the request handler comes to, by what it caught:
    an answer, or the TypeError of line 272. *)
Definition caughtResponse (e : thrown) : completion Response :=
  match e with
  | thrownError err => Returns (mkResponse 500 [("error", error_message err)])
  | thrownOther => Returns (mkResponse 500 [])
  | thrownNullish => Throws typeError
  end.

(** A piece of the gateway's work that leaves the variable as it is, makes
    no object and starts no client. *)
Definition quiet {T} (srv srv' : Server T) (tr : list gevent) : Prop :=
  senderInstance srv' = senderInstance srv
  /\ length (heap srv') = length (heap srv)
  /\ List.filter isNew tr = []
  /\ List.filter isInitialize tr = [].

Definition Quiet {T A} (m : Eff (Server T) gevent A) : Prop :=
  forall srv, quiet srv (m srv).1.2 (m srv).2.

(** What holds of the gateway at any time: either nothing has happened, or
    one object has been made, its client started once, and the variable
    refers to it. *)
Definition single {T} (sys : System T) : Prop :=
  (senderInstance (server sys) = None /\ heap (server sys) = []
   /\ callers sys = [] /\ history sys = [])
  \/ (senderInstance (server sys) = Some 0%nat
      /\ length (heap (server sys)) = 1%nat
      /\ callers sys <> []
      /\ length (List.filter isNew (history sys)) = 1%nat
      /\ length (List.filter isInitialize (history sys)) = 1%nat).

(** ** The usage example (lines 196-225) *)

(** What [main] does: what its sender does, and what it does itself. *)
Inductive mevent : Type :=
| MSender (e : event)
| MAppError (error : thrown)    (* console.error('Application error:', error) *)
| MOnSigint.                    (* process.on('SIGINT', ...) *)

(** A line feed. *)
Definition LF : string := String (ascii_of_nat 10) EmptyString.

(** The template literal of lines 202-205. *)
Definition mainDefaultMessage : string :=
  "Hello {name}! " +:+ LF +:+ "    " +:+ LF
    +:+ "This is a test message sent via WhatsApp automation." +:+ LF
    +:+ "Thank you!".

(** [try { body } finally { finalizer }]: the finalizer runs when the body
    has returned or thrown, and not while it is pending. *)
Definition tryFinally {S E A} (body : Eff S E A) (finalizer : Eff S E unit)
  : Eff S E A :=
  fun s =>
    match body s with
    | (Hangs, s1, tr1) => (Hangs, s1, tr1)
    | (r, s1, tr1) =>
        match finalizer s1 with
        | (Returns _, s2, tr2) => (r, s2, tr1 ++ tr2)
        | (Throws e, s2, tr2) => (Throws e, s2, tr1 ++ tr2)
        | (Hangs, s2, tr2) => (Hangs, s2, tr1 ++ tr2)
        end
    end.

Section Main.

Context {T : Type} `{Session T}.

(** A method of the sender, seen from [main]. *)
Definition ofSender {A} (m : Eff (Sender T) event A)
  : Eff (Sender T) mevent A :=
  fun this => match m this with (r, this', tr) => (r, this', map MSender tr) end.

(** Lines 197-220, on the sender line 198 makes.  [file] is what the file
    system holds under 'contacts.csv'. *)
Definition main (file : CsvFile)
  : completion unit * Sender T * list mevent :=
  tryFinally
    (tryCatch
       (ofSender (sendBulkMessages file (Some mainDefaultMessage) (Some 3000)))
       (fun error => emit (MAppError error)))
    (emit MOnSigint)
    (mkSender newClient []).

End Main.

(** ** More vocabulary *)

Definition isConsole (e : event) : bool :=
  match e with EConsole _ => true | _ => false end.

Definition isSent (e : event) : bool :=
  match e with EConsole (LogSent _ _) => true | _ => false end.

Definition isProcessing (e : event) : bool :=
  match e with EConsole (LogProcessing _ _ _) => true | _ => false end.


(** The progress lines of a run over [cs], the first of which has index
    [i], out of [n]. *)
Fixpoint progress (i n : nat) (cs : list Contact) : list event :=
  match cs with
  | [] => []
  | c :: rest =>
      EConsole (LogProcessing (i + 1) n (name c)) :: progress (S i) n rest
  end.

(** The error the promise of [readContactsFromCSV] is rejected with, if it
    is rejected. *)
Definition fileFault (file : CsvFile) : option JsError :=
  match file with
  | FileMissing path => Some (mkError ("CSV file not found: " +:+ path))
  | FileRows _ => None
  | FileBroken _ error => Some error
  | FileUnreadable _ _ => None
  end.

(** ** A session that does not start

    The browser cannot be launched: [initialize()] is rejected, and so is
    every request. *)

Inductive DeadClient : Type := Dead.

Definition launchError : JsError := mkError "Failed to launch the browser process".

#[export] Instance deadSession : Session DeadClient := {|
  newClient := Dead;
  clientInitialize c := (Rejected launchError, c);
  clientInfo _ := false;
  clientReady _ := None;
  clientGetNumberId _ c := (Rejected (mkError "Session closed"), c);
  clientSendMessage _ _ c := (Rejected (mkError "Session closed"), c)
|}.

(** ** A session that rejects with nothing

    The client starts and is ready at once; every check and every send is
    rejected as [Promise.reject()] does it: with [undefined]. *)

Inductive VoidClient : Type := Void.

#[export] Instance voidSession : Session VoidClient := {|
  newClient := Void;
  clientInitialize c := (Fulfilled tt, c);
  clientInfo _ := true;
  clientReady _ := None;
  clientGetNumberId _ c := (Rejected thrownNullish, c);
  clientSendMessage _ _ c := (Rejected thrownNullish, c)
|}.

(** ** A session that does not start, and says nothing

    [initialize()] is rejected with [undefined]. *)

Inductive MuteClient : Type := Mute.

#[export] Instance muteSession : Session MuteClient := {|
  newClient := Mute;
  clientInitialize c := (Rejected thrownNullish, c);
  clientInfo _ := false;
  clientReady _ := None;
  clientGetNumberId _ c := (Rejected thrownNullish, c);
  clientSendMessage _ _ c := (Rejected thrownNullish, c)
|}.

(** ** A session that starts and never gets ready

    The code shown on the screen is never scanned. *)

Inductive SilentClient : Type := Silent.

#[export] Instance silentSession : Session SilentClient := {|
  newClient := Silent;
  clientInitialize c := (Fulfilled tt, c);
  clientInfo _ := false;
  clientReady _ := None;
  clientGetNumberId _ c := (Fulfilled None, c);
  clientSendMessage _ _ c := (Fulfilled tt, c)
|}.

(** ** Files and states to run the code on *)

(** A file with three rows, the second of which has no phone. *)
Definition threeRows : list Row :=
  [ {[ "name" := "Ann"; "phone" := "0812-345-67" ]};
    {[ "name" := "Nobody"; "phone" := "" ]};
    {[ "phone" := "6289999999"; "message" := "Yo" ]} ].

(** The fake client once [initialize()] is through, and once it is ready. *)
Definition fakeStarted : FakeClient := mkFake false [].
Definition fakeReady : Sender FakeClient := mkSender (mkFake true []) [].

(** The module as loaded, on the session that does not start. *)
Definition loadedDead : Server DeadClient := mkServer None [].

(** Two calls on the session that does not start: the second is made while
    the first waits for [initialize()], which then fails. *)
Definition deadTwoCalls : System DeadClient :=
  mkSystem (mkServer (Some 0%nat) [mkSender Dead []])
    [Raised launchError; Returned] [GNew 0; GOn 0 EInitialize].

(** * Properties *)

(** ** Strings *)

Lemma append_cons (x : ascii) (a b : string) :
  String x a +:+ b = String x (a +:+ b).
Proof. reflexivity. Qed.

Lemma allDigits_append (a b : string) :
  allDigits (a +:+ b) = (allDigits a && allDigits b)%bool.
Proof.
  induction a as [|x a IH]; [reflexivity |].
  rewrite append_cons. simpl. rewrite IH. now rewrite andb_assoc.
Qed.

Lemma allDigits_removeNonDigits (s : string) :
  allDigits (JsString.removeNonDigits s) = true.
Proof.
  induction s as [|c s IH]; simpl; [reflexivity |].
  destruct (JsString.isDigit c) eqn:Hc; simpl; [now rewrite Hc | exact IH].
Qed.

(** The code's regular expression strips what the specification strips. *)
Lemma removeNonDigits_strip (s : string) :
  JsString.removeNonDigits s = PhoneNormalizer.strip s.
Proof.
  unfold PhoneNormalizer.strip.
  induction s as [|c s IH]; simpl; [reflexivity |].
  destruct (JsString.isDigit c); simpl; now rewrite IH.
Qed.

Lemma prefix_cons_inv (c : ascii) (s : string) :
  String.prefix (String c "") s = true -> exists t, s = String c t.
Proof.
  destruct s as [|d s]; simpl; [discriminate |].
  destruct (ascii_dec c d) as [->|]; [eauto | discriminate].
Qed.

Lemma prefix_cons_false (c d : ascii) (s : string) :
  String.prefix (String c "") (String d s) = false -> Ascii.eqb d c = false.
Proof.
  simpl. destruct (ascii_dec c d) as [->|Hne].
  - destruct s; discriminate.
  - intros _. apply Ascii.eqb_neq. congruence.
Qed.

(** A replacement without a dollar sign stands for itself. *)
Lemma getSubstitution_dollarFree (matched str : string) (position : nat)
      (template : string) :
  dollarFree template = true ->
  JsString.getSubstitution matched str position template = template.
Proof.
  induction template as [|c rest IH]; simpl; [reflexivity |].
  intros Hfree. apply andb_true_iff in Hfree as [Hc Hrest].
  apply negb_true_iff in Hc. rewrite Hc. now rewrite IH.
Qed.

(** [replace], when the replacement expands to the same text wherever the
    match is found, replaces the first occurrence by that text. *)
Lemma replace_first_occurrence (str pat rep expansion : string) :
  (forall position,
      JsString.getSubstitution pat str position rep = expansion) ->
  JsString.replace str pat rep = replaceFirst pat expansion str.
Proof.
  intros Hexp. unfold JsString.replace.
  transitivity
    (match JsString.indexOf pat str with
     | Some position =>
         JsString.substringTo position str +:+ expansion
           +:+ JsString.substringFrom (position + String.length pat) str
     | None => str
     end).
  { destruct (JsString.indexOf pat str); [now rewrite Hexp | reflexivity]. }
  clear Hexp. induction str as [|c t IH].
  - destruct pat; reflexivity.
  - cbn [JsString.indexOf replaceFirst].
    destruct (String.prefix pat (String c t)); [reflexivity |].
    destruct (JsString.indexOf pat t) as [position|]; simpl.
    + rewrite append_cons. now rewrite <- IH.
    + now rewrite <- IH.
Qed.

Lemma replace_dollarFree (str pat rep : string) :
  dollarFree rep = true ->
  JsString.replace str pat rep = replaceFirst pat rep str.
Proof.
  intros Hfree. apply replace_first_occurrence.
  intros position. now apply getSubstitution_dollarFree.
Qed.

(** ** PhoneNormalizer *)

Lemma digits_allDigits (raw : string) :
  allDigits (PhoneNormalizer.digits raw) = true.
Proof.
  unfold PhoneNormalizer.digits. rewrite <- removeNonDigits_strip.
  pose proof (allDigits_removeNonDigits raw) as Hd.
  destruct (String.prefix _ _); [exact Hd |].
  destruct (JsString.removeNonDigits raw) as [|c rest]; [reflexivity |].
  destruct (Ascii.eqb c _); rewrite allDigits_append.
  - simpl in Hd. apply andb_true_iff in Hd as [_ Hd]. now rewrite Hd.
  - now rewrite Hd.
Qed.

(** The code computes the digits the specification describes. *)
Lemma formatPhoneNumber_digits (raw : string) :
  formatPhoneNumber raw = PhoneNormalizer.digits raw +:+ "@c.us".
Proof.
  unfold formatPhoneNumber, PhoneNormalizer.digits, JsString.startsWith,
    PhoneNormalizer.countryCode, PhoneNormalizer.trunkPrefix.
  rewrite <- removeNonDigits_strip.
  destruct (String.prefix "62" (JsString.removeNonDigits raw)) eqn:H62;
    simpl negb; cbv iota; [reflexivity |].
  rewrite !andb_true_l.
  destruct (String.prefix "0" (JsString.removeNonDigits raw)) eqn:H0.
  - apply prefix_cons_inv in H0 as [t ->]. reflexivity.
  - simpl negb. cbv iota.
    destruct (JsString.removeNonDigits raw) as [|c rest]; [reflexivity |].
    apply prefix_cons_false in H0. now rewrite H0.
Qed.

(** C2.  For every raw string, [formatPhoneNumber] returns what the
    specification's normalizer returns: the stripped digits, left as they are
    when they start with 62, with a leading 0 replaced by 62, or with 62
    prepended, followed by the fixed suffix; and nothing but digits stands
    before the suffix. *)
Theorem formatPhoneNumber_normalize (raw : string) :
  formatPhoneNumber raw = PhoneNormalizer.normalize raw
  /\ formatPhoneNumber raw
     = PhoneNormalizer.digits raw +:+ PhoneNormalizer.addressSuffix
  /\ allDigits (PhoneNormalizer.digits raw) = true.
Proof.
  split; [apply formatPhoneNumber_digits |].
  split; [apply formatPhoneNumber_digits | apply digits_allDigits].
Qed.

Example formatPhoneNumber_trunk :
  formatPhoneNumber "081234567" = "6281234567@c.us".
Proof. reflexivity. Qed.

Example formatPhoneNumber_bare :
  formatPhoneNumber "81234567" = "6281234567@c.us".
Proof. reflexivity. Qed.

Example formatPhoneNumber_prefixed :
  formatPhoneNumber "+62 812-3456-7" = "6281234567@c.us".
Proof. reflexivity. Qed.

Example formatPhoneNumber_no_digit : formatPhoneNumber "n/a" = "62@c.us".
Proof. reflexivity. Qed.

(** ** sendMessage *)

Lemma filter_none {A} (f : A -> bool) (l : list A) :
  (forall x, In x l -> f x = false) -> List.filter f l = [].
Proof.
  induction l as [|x l IH]; intros Hf; [reflexivity |]. simpl.
  rewrite (Hf x) by now left. apply IH. intros y Hy. apply Hf. now right.
Qed.

(** The ways of a delivery: no text; the check rejected; not registered; the
    send rejected; sent.  A rejection comes with an error, with a value that
    has no message, or with nothing. *)
Ltac delivery_cases :=
  unfold delivery, caught;
  destruct (JsString.truthy _);
  [ destruct (clientGetNumberId _ _) as [[[?id|]|[?e| |]] ?c];
    [ destruct (clientSendMessage _ _ _) as [[[]|[?e| |]] ?c] | | | | ] | ];
  cbn [fst snd].

Section SendMessage.

Context {T : Type} `{Session T}.

Lemma setClient_client (this : Sender T) : setClient this (client this) = this.
Proof. now destruct this. Qed.

Lemma contacts_setClient (this : Sender T) (c : T) :
  contacts (setClient this c) = contacts this.
Proof. reflexivity. Qed.

(** [sendMessage] is [delivery], run on [this.client]. *)
Lemma sendMessage_delivery (contact : Contact) (d : option string)
      (this : Sender T) :
  sendMessage contact d this =
  ((delivery contact (default "" d) (client this)).1.1,
   setClient this (delivery contact (default "" d) (client this)).1.2,
   ECall contact (default "" d)
     :: (delivery contact (default "" d) (client this)).2).
Proof.
  unfold sendMessage, delivery, caught, request, consoleLog, readMessage.
  unfold bind, tryCatch, emit, settle, ret, throw.
  destruct (JsString.truthy _) eqn:Ht; simpl.
  - destruct (clientGetNumberId _ _) as [[[id|]|[e| |]] c1]; simpl;
      try reflexivity.
    destruct (clientSendMessage _ _ _) as [[[]|[e| |]] c2]; simpl; reflexivity.
  - now rewrite setClient_client.
Qed.

(** A delivery returns a boolean, or it throws the TypeError of line 121;
    it throws only when the session has rejected with [undefined] or
    [null]. *)
Lemma delivery_outcome (contact : Contact) (d : string) (c : T) :
  (exists b, (delivery contact d c).1.1 = Returns b)
  \/ ((delivery contact d c).1.1 = Throws typeError
      /\ faultsWith contact d c thrownNullish).
Proof.
  unfold faultsWith, delivery, caught.
  destruct (JsString.truthy _); [| left; now exists false].
  destruct (clientGetNumberId _ _) as [[[id|]|[e| |]] c1] eqn:Hg;
    cbn [fst snd]; try (left; now eexists).
  - destruct (clientSendMessage _ _ _) as [[[]|[e| |]] c2] eqn:Hs;
      cbn [fst snd]; try (left; now eexists).
    right. split; [reflexivity |]. split; [reflexivity |]. right.
    now exists id, c1, c2.
  - right. split; [reflexivity |]. split; [reflexivity |]. left. now exists c1.
Qed.

Lemma faultsWith_nullish (contact : Contact) (d : string) (c : T) :
  faultsWith contact d c thrownNullish -> ~ rejectsWithValue T.
Proof.
  intros (_ & [(c1 & Hf) | (id & c1 & c2 & _ & Hf)]) [Hg Hs];
    [now apply Hg in Hf | now apply Hs in Hf].
Qed.

Lemma delivery_returns (contact : Contact) (d : string) (c : T) :
  rejectsWithValue T -> exists b, (delivery contact d c).1.1 = Returns b.
Proof.
  intros [Hg Hs].
  destruct (delivery_outcome contact d c)
    as [Hb | (_ & _ & [(c1 & Hf) | (id & c1 & c2 & _ & Hf)])];
    [exact Hb | now apply Hg in Hf | now apply Hs in Hf].
Qed.

(** What a delivery does, event by event: it asks whether the contact's phone
    is registered, it sends the personalised text to that phone, it writes
    lines on the console that are not the summary; nothing else. *)
Lemma delivery_events (contact : Contact) (d : string) (c : T) (e : event) :
  In e (delivery contact d c).2 ->
  e = EGetNumberId (phone contact)
  \/ e = ESendMessage (phone contact)
           (JsString.replace (JsString.orString (message contact) d)
              "{name}" (name contact))
  \/ exists l, e = EConsole l /\ isSummary e = false.
Proof.
  delivery_cases; intros Hin;
    repeat (destruct Hin as [<-|Hin]; [eauto 6 |]); destruct Hin.
Qed.

(** What a delivery sends goes to the contact's phone and is the resolved
    text, personalised. *)
Lemma delivery_sends (contact : Contact) (d : string) (c : T)
      (p body : string) :
  In (ESendMessage p body) (delivery contact d c).2 ->
  p = phone contact
  /\ body = JsString.replace (JsString.orString (message contact) d)
              "{name}" (name contact).
Proof.
  intros [Hin|[Hin|(l & Hin & _)]]%delivery_events; try discriminate.
  now injection Hin as -> ->.
Qed.

(** A delivery does not enter the primitive again. *)
Lemma delivery_no_call (contact : Contact) (d : string) (c : T)
      (contact' : Contact) (d' : string) :
  ~ In (ECall contact' d') (delivery contact d c).2.
Proof. intros [Hin|[Hin|(l & Hin & _)]]%delivery_events; discriminate. Qed.

(** A delivery neither pauses nor calls, writes no summary and does not
    start the client. *)
Lemma delivery_quiet (contact : Contact) (d : string) (c : T) :
  List.filter isCallOrSleep (delivery contact d c).2 = []
  /\ List.filter isSummary (delivery contact d c).2 = []
  /\ ~ In EInitialize (delivery contact d c).2.
Proof.
  split; [| split].
  - apply filter_none.
    now intros e [->|[->|(l & -> & _)]]%delivery_events.
  - apply filter_none.
    now intros e [->|[->|(l & -> & Hl)]]%delivery_events.
  - intros [Hin|[Hin|(l & Hin & _)]]%delivery_events; discriminate.
Qed.

(** [sendMessage] never stays pending: it returns a boolean or throws the
    TypeError, and it returns when no rejection is [undefined] or [null]. *)
Lemma sendMessage_settles (contact : Contact) (d : option string)
      (this : Sender T) :
  ((exists b, (sendMessage contact d this).1.1 = Returns b)
   \/ ((sendMessage contact d this).1.1 = Throws typeError
       /\ faultsWith contact (default "" d) (client this) thrownNullish))
  /\ (rejectsWithValue T ->
      exists b, (sendMessage contact d this).1.1 = Returns b).
Proof.
  rewrite sendMessage_delivery. cbn [fst]. split.
  - apply delivery_outcome.
  - apply delivery_returns.
Qed.


(** What a delivery with a text comes to: [true] exactly when the number is
    registered and the send is fulfilled; no send to a number that is not
    registered; and, for a name without a dollar sign, the text sent is the
    template with its first placeholder replaced by the name. *)
Lemma sendMessage_delivers (contact : Contact) (d : option string)
      (this : Sender T) :
  let text := JsString.orString (message contact) (default "" d) in
  JsString.truthy text = true ->
  ((sendMessage contact d this).1.1 = Returns true <->
   exists id c1 u c2,
     clientGetNumberId (phone contact) (client this)
     = (Fulfilled (Some id), c1)
     /\ clientSendMessage (phone contact)
          (JsString.replace text "{name}" (name contact)) c1
        = (Fulfilled u, c2))
  /\ (forall c1,
        clientGetNumberId (phone contact) (client this) = (Fulfilled None, c1) ->
        (sendMessage contact d this).1.1 = Returns false
        /\ forall p body,
            ~ In (ESendMessage p body) (sendMessage contact d this).2)
  /\ (dollarFree (name contact) = true ->
      (sendMessage contact d this).1.1 = Returns true ->
      In (ESendMessage (phone contact)
            (replaceFirst "{name}" (name contact) text))
         (sendMessage contact d this).2).
Proof.
  intros text Ht. rewrite sendMessage_delivery. unfold delivery. fold text.
  rewrite Ht. cbn [fst snd]. split; [split | split].
  - destruct (clientGetNumberId _ _) as [[[id|]|[e| |]] c1];
      try discriminate.
    destruct (clientSendMessage _ _ _) as [[u|[e| |]] c2] eqn:Hs;
      try discriminate.
    intros _. now exists id, c1, u, c2.
  - intros (id & c1 & u & c2 & -> & ->). reflexivity.
  - intros c1 Hg. rewrite Hg. split; [reflexivity |].
    intros p body. cbn [snd]. intros [Hin|[Hin|[Hin|[]]]]; discriminate.
  - intros Hfree. rewrite <- (replace_dollarFree _ _ _ Hfree).
    destruct (clientGetNumberId _ _) as [[[id|]|[e| |]] c1];
      try discriminate.
    destruct (clientSendMessage _ _ _) as [[u|[e| |]] c2]; try discriminate.
    intros _. cbn [snd]. right. right. now left.
Qed.

End SendMessage.

(** C3 at a session that rejects with nothing.  The check whether Ann's
    number is registered is rejected with [undefined]; the [catch] of line
    120 takes it, reading its [message] throws, and the call does not return
    [false]: it throws, after the check and without a line on the console. *)
Theorem sendMessage_throws_on_undefined :
  faultsWith ann "Hi {name}" Void thrownNullish
  /\ sendMessage ann (Some "Hi {name}") (mkSender Void [])
     = (Throws typeError, mkSender Void [],
        [ECall ann "Hi {name}"; EGetNumberId "6281234567@c.us"]).
Proof.
  split; [| reflexivity]. split; [reflexivity |]. left. now exists Void.
Qed.

(** The send to Bob is rejected with an error: the call returns [false]. *)
Example sendMessage_bob :
  sendMessage bob (Some "Hi {name}") fakeSender
  = (Returns false, fakeSender,
     [ECall bob "Hi {name}"; EGetNumberId "6289999999@c.us";
      ESendMessage "6289999999@c.us" "Yo Bob";
      EConsole (LogSendFailed "Bob" "6289999999@c.us" "Protocol error")]).
Proof. reflexivity. Qed.

Example sendMessage_cy :
  sendMessage cy (Some "Hi {name}") fakeSender
  = (Returns false, fakeSender,
     [ECall cy "Hi {name}"; EGetNumberId "6280000000@c.us";
      EConsole (LogSendFailed "Cy" "6280000000@c.us" "Evaluation failed")]).
Proof. reflexivity. Qed.



(** C5 at a name that holds a replacement pattern.  The number is registered
    and the send is fulfilled, so the call returns [true]; the text that was
    sent is the template with its placeholder replaced by the expansion of
    the name, which is not the name. *)
Theorem sendMessage_dollar_name :
  let contact := mkContact "Ca$$h" "6281234567@c.us" (Some "Hi {name}!") in
  sendMessage contact None fakeSender
  = (Returns true,
     mkSender (mkFake false [("6281234567@c.us", "Hi Ca$h!")]) [],
     [ECall contact ""; EGetNumberId "6281234567@c.us";
      ESendMessage "6281234567@c.us" "Hi Ca$h!";
      EConsole (LogSent "Ca$$h" "6281234567@c.us")])
  /\ replaceFirst "{name}" (name contact) "Hi {name}!" = "Hi Ca$$h!"
  /\ "Hi Ca$h!" <> replaceFirst "{name}" (name contact) "Hi {name}!".
Proof. cbv zeta. split; [reflexivity |]. split; [reflexivity | discriminate]. Qed.

Example replace_first_only :
  JsString.replace "{name}, dear {name}" "{name}" "Ann" = "Ann, dear {name}".
Proof. reflexivity. Qed.

Example replace_patterns :
  JsString.replace "Hi {name}!" "{name}" "$$|$&|$`|$'|$1|$" = "Hi $|{name}|Hi |!|$1|$!".
Proof. reflexivity. Qed.

(** ** readContactsFromCSV *)

Lemma truthy_nonempty (s : string) : JsString.truthy s = true <-> s <> "".
Proof. destruct s; simpl; split; congruence. Qed.

Lemma truthy_eqb (s : string) : JsString.truthy s = negb (String.eqb s "").
Proof. now destruct s. Qed.

Lemma formatPhoneNumber_address (raw : string) :
  transportAddress (formatPhoneNumber raw).
Proof.
  exists (PhoneNormalizer.digits raw).
  split; [apply formatPhoneNumber_digits | apply digits_allDigits].
Qed.

(** The handler pushes at the end, so what was pushed before stays. *)
Lemma foldl_onData (rows : list Row) (acc : list Contact) :
  foldl onData acc rows = acc ++ foldl onData [] rows.
Proof.
  revert acc. induction rows as [|row rows IH]; intros acc; simpl.
  - now rewrite app_nil_r.
  - rewrite (IH (onData acc row)), (IH (onData [] row)).
    rewrite app_assoc. f_equal. unfold onData.
    destruct (row !! "phone") as [p|]; [| now rewrite app_nil_r].
    destruct (JsString.truthy p); [reflexivity | now rewrite app_nil_r].
Qed.

Lemma onData_accepts (row : Row) :
  carriesPhone row = true ->
  exists c, onData [] row = [c] /\ emittedFor row c
            /\ transportAddress (phone c).
Proof.
  unfold carriesPhone, onData. destruct (row !! "phone") as [p|] eqn:Hp;
    [| discriminate].
  rewrite <- truthy_eqb. intros Ht. rewrite Ht. eexists. split; [reflexivity |].
  split; [| apply formatPhoneNumber_address].
  split.
  { exists p. split; [exact Hp |]. split; [| reflexivity].
    now apply truthy_nonempty. }
  cbn [name message]. repeat split.
  - now intros [-> | ->].
  - intros n -> Hn. apply truthy_nonempty in Hn. simpl. now rewrite Hn.
  - now intros [-> | ->].
  - intros m -> Hm. apply truthy_nonempty in Hm. simpl. now rewrite Hm.
Qed.

Lemma onData_rejects (row : Row) : carriesPhone row = false -> onData [] row = [].
Proof.
  unfold carriesPhone, onData. destruct (row !! "phone") as [p|]; [| reflexivity].
  rewrite <- truthy_eqb. now intros ->.
Qed.

Lemma foldl_onData_emitted (rows : list Row) :
  Forall2 emittedFor (List.filter carriesPhone rows) (foldl onData [] rows)
  /\ Forall (fun c => transportAddress (phone c)) (foldl onData [] rows).
Proof.
  induction rows as [|row rows [IH2 IH]]; simpl; [split; constructor |].
  rewrite foldl_onData. destruct (carriesPhone row) eqn:Hrow.
  - destruct (onData_accepts row Hrow) as (c & -> & Hc & Ha).
    split; constructor; assumption.
  - rewrite (onData_rejects row Hrow). now split.
Qed.

(** C8.  Reading a file that parses returns a list of contacts, one for
    each row that carries a non-empty phone and for no other row, in the order
    of the rows.  The contact of a row has the row's phone after
    [formatPhoneNumber], which is a transport address; it has the row's
    name and message when these cells are there and not empty, and the name
    ["Unknown"] and the message [null] when the cell is absent or empty. *)
Theorem readContactsFromCSV_load {T : Type} `{Session T}
        (rows : list Row) (this : Sender T) :
  exists cs,
    readContactsFromCSV (FileRows rows) this
    = (Returns cs, this, [EConsole (LogLoaded (length cs))])
    /\ Forall2 emittedFor (List.filter carriesPhone rows) cs
    /\ Forall (fun c => transportAddress (phone c)) cs.
Proof.
  exists (foldl onData [] rows). split; [reflexivity |].
  apply foldl_onData_emitted.
Qed.

Example readContactsFromCSV_rows :
  foldl onData []
    [ ({[ "name" := "Ann"; "phone" := "0812-345-67" ]} : Row);
      {[ "name" := "Nobody"; "phone" := "" ]};
      {[ "name" := "Ghost" ]};
      {[ "phone" := "6289999999"; "message" := "Yo"; "city" := "Bandung" ]} ]
  = [ mkContact "Ann" "6281234567@c.us" None;
      mkContact "Unknown" "6289999999@c.us" (Some "Yo") ].
Proof. reflexivity. Qed.

Example readContactsFromCSV_empty_cells :
  foldl onData []
    [ ({[ "name" := ""; "phone" := "0812-345-67"; "message" := "" ]} : Row) ]
  = [ mkContact "Unknown" "6281234567@c.us" None ].
Proof. reflexivity. Qed.

(** ** sendBulkMessages *)

Lemma filter_isCall_isCallOrSleep (tr : list event) :
  List.filter isCall (List.filter isCallOrSleep tr) = List.filter isCall tr.
Proof.
  induction tr as [|e tr IH]; [reflexivity |].
  destruct e; simpl; now rewrite ?IH.
Qed.

Lemma filter_isSleep_isCallOrSleep (tr : list event) :
  List.filter isSleep (List.filter isCallOrSleep tr) = List.filter isSleep tr.
Proof.
  induction tr as [|e tr IH]; [reflexivity |].
  destruct e; simpl; now rewrite ?IH.
Qed.

(** The calls of a paced run are the contacts, in order. *)
Lemma paced_calls (d : string) (delay : Z) (cs : list Contact) :
  List.filter isCall (paced d delay cs) = map (fun c => ECall c d) cs.
Proof.
  induction cs as [|c [|c' rest] IH]; [reflexivity | reflexivity |].
  change (paced d delay (c :: c' :: rest))
    with (ECall c d :: ESleep delay :: paced d delay (c' :: rest)).
  cbn [List.filter isCall]. rewrite IH. reflexivity.
Qed.

(** The pauses of a paced run: one less than there are contacts, each of
    the delay that was asked for. *)
Lemma paced_sleeps (d : string) (delay : Z) (cs : list Contact) :
  List.filter isSleep (paced d delay cs)
  = repeat (ESleep delay) (length cs - 1).
Proof.
  induction cs as [|c [|c' rest] IH]; [reflexivity | reflexivity |].
  change (paced d delay (c :: c' :: rest))
    with (ECall c d :: ESleep delay :: paced d delay (c' :: rest)).
  cbn [List.filter isSleep]. rewrite IH. simpl. now rewrite Nat.sub_0_r.
Qed.

Section SendBulkMessages.

Context {T : Type} `{Session T}.

(** Past the last contact the loop is over, with any fuel. *)
Lemma sendLoop_done (fuel : nat) (d : string) (delay : Z) (i sc fc : nat)
      (this : Sender T) :
  (length (contacts this) <= i)%nat ->
  sendLoop fuel d delay i sc fc this = (Returns (sc, fc), this, []).
Proof.
  intros Hi. destruct fuel; cbn [sendLoop]; unfold bind, get;
    destruct (Z.ltb_spec (Z.of_nat i) (Z.of_nat (length (contacts this))));
    try lia; reflexivity.
Qed.

(** One turn of the loop: when the delivery throws, so does the loop. *)
Lemma sendLoop_turn (fuel : nat) (d : string) (delay : Z) (i sc fc : nat)
      (this : Sender T) (contact : Contact) :
  contacts this !! i = Some contact ->
  sendLoop (S fuel) d delay i sc fc this =
  let out := delivery contact d (client this) in
  let head :=
    EConsole (LogProcessing (i + 1) (length (contacts this)) (name contact))
      :: ECall contact d :: out.2 in
  match out.1.1 with
  | Returns success =>
      let rest :=
        sendLoop fuel d delay (i + 1)
          (if success then S sc else sc) (if success then fc else S fc)
          (setClient this out.1.2) in
      (rest.1.1, rest.1.2,
       EConsole (LogProcessing (i + 1) (length (contacts this)) (name contact))
         :: ECall contact d :: out.2
         ++ (if Z.of_nat i <? Z.of_nat (length (contacts this)) - 1
             then [EConsole (LogWaiting delay); ESleep (timerDelay delay)]
             else [])
         ++ rest.2)
  | Throws e => (Throws e, setClient this out.1.2, head)
  | Hangs => (Hangs, setClient this out.1.2, head)
  end.
Proof.
  intros Hc. pose proof (lookup_lt_Some _ _ _ Hc) as Hlt.
  cbn [sendLoop]. unfold bind at 1. unfold get at 1.
  destruct (Z.ltb_spec (Z.of_nat i) (Z.of_nat (length (contacts this))));
    [| lia].
  rewrite Hc. unfold consoleLog, sleep.
  unfold bind at 1. unfold emit at 1. unfold bind at 1.
  rewrite sendMessage_delivery. change (default "" (Some d)) with d.
  set (out := delivery contact d (client this)).
  cbv zeta. destruct out.1.1 as [success|e|]; [| reflexivity | reflexivity].
  unfold bind at 1. unfold get at 1. unfold bind at 1.
  rewrite contacts_setClient.
  destruct (Z.of_nat i <? Z.of_nat (length (contacts this)) - 1).
  - unfold bind at 1, emit. cbn [app].
    destruct (sendLoop fuel d delay (i + 1) _ _ _) as [[r this'] tr].
    reflexivity.
  - unfold ret. cbn [app].
    destruct (sendLoop fuel d delay (i + 1) _ _ _) as [[r this'] tr].
    reflexivity.
Qed.

(** The loop, entered with fuel for what is left, does not stay pending, and
    it leaves the contacts as they are. *)
Lemma sendLoop_settles (d : string) (delay : Z) (n : nat) :
  forall (i fuel sc fc : nat) (this : Sender T),
    (length (contacts this) - i = n)%nat ->
    (n <= fuel)%nat ->
    (sendLoop fuel d delay i sc fc this).1.1 <> Hangs
    /\ contacts (sendLoop fuel d delay i sc fc this).1.2 = contacts this.
Proof.
  induction n as [|n IH]; intros i fuel sc fc this Hn Hfuel.
  - now rewrite sendLoop_done by lia.
  - destruct fuel as [|fuel]; [lia |].
    destruct (lookup_lt_is_Some_2 (contacts this) i) as [contact Hc]; [lia |].
    rewrite (sendLoop_turn _ _ _ _ _ _ _ _ Hc). cbv zeta.
    destruct (delivery_outcome contact d (client this))
      as [[b Hb] | [Hb _]]; rewrite Hb; [| now split].
    cbn [fst snd].
    destruct (IH (i + 1)%nat fuel (if b then S sc else sc)
                (if b then fc else S fc)
                (setClient this (delivery contact d (client this)).1.2))
      as [Hr Hcs]; [rewrite contacts_setClient; lia | lia |].
    split; [exact Hr | now rewrite Hcs].
Qed.

(** The loop, entered at index [i] with fuel for what is left, on a session
    whose rejections are values, comes to an end: it calls the primitive for
    each contact from [i] on, in order, sets a timer between two calls,
    counts each outcome once and leaves the contacts as they are. *)
Lemma sendLoop_paced (d : string) (delay : Z) (n : nat) :
  rejectsWithValue T ->
  forall (i fuel sc fc : nat) (this : Sender T),
    (length (contacts this) - i = n)%nat ->
    (n <= fuel)%nat ->
    exists sc' fc' this' tr,
      sendLoop fuel d delay i sc fc this = (Returns (sc', fc'), this', tr)
      /\ contacts this' = contacts this
      /\ List.filter isCallOrSleep tr
         = paced d (timerDelay delay) (drop i (contacts this))
      /\ List.filter isSummary tr = []
      /\ (sc' + fc' = sc + fc + n)%nat.
Proof.
  intros Hvalue.
  induction n as [|n IH]; intros i fuel sc fc this Hn Hfuel.
  - exists sc, fc, this, []. rewrite sendLoop_done by lia.
    rewrite drop_ge by lia. repeat split. lia.
  - destruct fuel as [|fuel]; [lia |].
    destruct (lookup_lt_is_Some_2 (contacts this) i) as [contact Hc]; [lia |].
    rewrite (sendLoop_turn _ _ _ _ _ _ _ _ Hc). cbv zeta.
    destruct (delivery_returns contact d (client this) Hvalue) as [b Hb].
    rewrite Hb.
    set (out := delivery contact d (client this)).
    destruct (IH (i + 1)%nat fuel (if b then S sc else sc)
                (if b then fc else S fc) (setClient this out.1.2))
      as (sc' & fc' & this' & tr & Hrun & Hcs & Htr & Hsum & Hcount);
      [rewrite contacts_setClient; lia | lia |].
    rewrite Hrun. cbn [fst snd]. rewrite contacts_setClient in Hcs, Htr.
    eexists sc', fc', this', _. split; [reflexivity |]. split; [exact Hcs |].
    split; [| split].
    + rewrite (drop_S _ _ _ Hc). cbn [List.filter isCallOrSleep isCall isSleep orb].
      pose proof (proj1 (delivery_quiet contact d (client this))) as Hquiet.
      fold out in Hquiet.
      rewrite !List.filter_app, Hquiet, Htr. cbn [app].
      rewrite Nat.add_1_r.
      destruct (Z.ltb_spec (Z.of_nat i) (Z.of_nat (length (contacts this)) - 1)).
      * destruct (drop (S i) (contacts this)) as [|c' rest] eqn:Hdrop.
        { apply (f_equal length) in Hdrop. rewrite length_drop in Hdrop.
          simpl in Hdrop. lia. }
        reflexivity.
      * rewrite drop_ge by lia. reflexivity.
    + cbn [List.filter isSummary]. rewrite !List.filter_app, Hsum.
      pose proof (proj1 (proj2 (delivery_quiet contact d (client this))))
        as Hq.
      fold out in Hq.
      rewrite Hq. now destruct (_ <? _).
    + destruct b; lia.
Qed.

Lemma timerDelay_range (delay : Z) :
  (1 <= delay <= 2147483647 -> timerDelay delay = delay)
  /\ (delay < 1 \/ 2147483647 < delay -> timerDelay delay = 1).
Proof.
  unfold timerDelay.
  destruct (Z.ltb_spec delay 1), (Z.ltb_spec 2147483647 delay); simpl; lia.
Qed.

(** C1, amended.  For every list of contacts of length N >= 1, every default
    message and every delay, on a session whose rejections of a check or a
    send are never [undefined] or [null], the loop of [sendBulkMessages]
    comes to an end after calling the delivery primitive for each contact
    of the list, in the order of the list, and setting a timer between two
    consecutive calls and not after the last: N calls, N - 1 timers, and N
    outcomes counted.  The timer runs for the delay when that is between 1
    and 2^31 - 1, and for one millisecond otherwise. *)
Theorem sendLoop_runs_batch (d : string) (delay : Z) (this : Sender T) :
  rejectsWithValue T ->
  (1 <= length (contacts this))%nat ->
  exists sc fc this' tr,
    sendLoop (length (contacts this)) d delay 0 0 0 this
    = (Returns (sc, fc), this', tr)
    /\ List.filter isCallOrSleep tr
       = paced d (timerDelay delay) (contacts this)
    /\ List.filter isCall tr = map (fun c => ECall c d) (contacts this)
    /\ List.filter isSleep tr
       = repeat (ESleep (timerDelay delay)) (length (contacts this) - 1)
    /\ (1 <= delay <= 2147483647 -> timerDelay delay = delay)
    /\ (delay < 1 \/ 2147483647 < delay -> timerDelay delay = 1)
    /\ (sc + fc = length (contacts this))%nat.
Proof.
  intros Hvalue _.
  destruct (sendLoop_paced d delay (length (contacts this)) Hvalue 0
              (length (contacts this)) 0 0 this)
    as (sc & fc & this' & tr & Hrun & _ & Htr & _ & Hcount); [lia | lia |].
  rewrite drop_0 in Htr.
  exists sc, fc, this', tr. split; [exact Hrun |]. split; [exact Htr |].
  split; [| split; [| split; [| split]]].
  - now rewrite <- filter_isCall_isCallOrSleep, Htr, paced_calls.
  - now rewrite <- filter_isSleep_isCallOrSleep, Htr, paced_sleeps.
  - apply timerDelay_range.
  - apply timerDelay_range.
  - lia.
Qed.

(** [sendBulkMessages] once the client has started and is ready. *)
Lemma sendBulkMessages_started (rows : list Row) (d : option string)
      (delay : option Z) (this : Sender T) (u : unit) (c1 : T)
      (this1 : Sender T) (tr1 : list event) :
  clientInitialize (client this) = (Fulfilled u, c1) ->
  awaitReady (setClient this c1) = (Returns tt, this1, tr1) ->
  sendBulkMessages (FileRows rows) d delay this =
  let cs := foldl onData [] rows in
  let this2 := setContacts this1 cs in
  if (length cs =? 0)%nat then
    (Returns tt, this2,
     [EInitialize; EConsole (LogLoaded (length cs)); EConsole LogNoContacts])
  else
    let loop := sendLoop (length cs) (default "" d) (default 2000 delay)
                  0 0 0 this2 in
    let before :=
      [EInitialize; EConsole (LogLoaded (length cs));
       EConsole (LogStarting (length cs));
       EConsole (LogDelay (default 2000 delay))] in
    match loop.1.1 with
    | Returns counts =>
        (Returns tt, loop.1.2,
         before ++ loop.2
           ++ [EConsole (LogSummary (length (contacts loop.1.2))
                           counts.1 counts.2)])
    | Throws e =>
        (Returns tt, loop.1.2, before ++ loop.2 ++ [EConsole (LogBulkError e)])
    | Hangs => (Hangs, loop.1.2, before ++ loop.2)
    end.
Proof.
  intros Hinit Hready.
  assert (Htr1 : tr1 = []).
  { unfold awaitReady in Hready. destruct (clientInfo _); [congruence |].
    destruct (clientReady _); congruence. }
  subst tr1. unfold sendBulkMessages, readContactsFromCSV, request, consoleLog.
  unfold tryCatch. unfold bind at 1. unfold bind at 1. unfold emit at 1.
  unfold settle. rewrite Hinit. unfold bind at 1. rewrite Hready.
  unfold bind at 1. unfold bind at 1. unfold emit at 1, ret at 1.
  unfold bind at 1. unfold get at 1. unfold bind at 1. unfold put at 1.
  unfold bind at 1. unfold get at 1. cbn [contacts setContacts].
  cbv zeta. destruct (length (foldl onData [] rows) =? 0)%nat.
  - reflexivity.
  - unfold bind at 1. unfold emit at 1. unfold bind at 1. unfold emit at 1.
    unfold bind at 1.
    destruct (sendLoop _ _ _ 0 0 0 _) as [[[counts|e|] this3] tr]; cbn.
    + reflexivity.
    + reflexivity.
    + reflexivity.
Qed.

Lemma awaitReady_cases (this : Sender T) :
  (exists this1, awaitReady this = (Returns tt, this1, [])
                 /\ contacts this1 = contacts this)
  \/ awaitReady this = (Hangs, this, []).
Proof.
  unfold awaitReady. destruct (clientInfo _); [left; now exists this |].
  destruct (clientReady _) as [c|]; [left | now right].
  now exists (setClient this c).
Qed.

(** [sendBulkMessages] when the client does not start. *)
Lemma sendBulkMessages_rejected (file : CsvFile) (d : option string)
      (delay : option Z) (this : Sender T) (e : thrown) (c1 : T) :
  clientInitialize (client this) = (Rejected e, c1) ->
  sendBulkMessages file d delay this
  = (Returns tt, setClient this c1,
     [EInitialize; EConsole (LogBulkError e)]).
Proof.
  intros Hinit. unfold sendBulkMessages, request, consoleLog, tryCatch.
  unfold bind at 1. unfold bind at 1. unfold emit at 1. unfold settle.
  now rewrite Hinit.
Qed.

(** [sendBulkMessages] when the client starts and is never ready. *)
Lemma sendBulkMessages_never_ready (file : CsvFile) (d : option string)
      (delay : option Z) (this : Sender T) (u : unit) (c1 : T) :
  clientInitialize (client this) = (Fulfilled u, c1) ->
  awaitReady (setClient this c1) = (Hangs, setClient this c1, []) ->
  sendBulkMessages file d delay this
  = (Hangs, setClient this c1, [EInitialize]).
Proof.
  intros Hinit Hready. unfold sendBulkMessages, request, consoleLog, tryCatch.
  unfold bind at 1. unfold bind at 1. unfold emit at 1. unfold settle.
  rewrite Hinit. unfold bind at 1. now rewrite Hready.
Qed.

(** The whole of [sendBulkMessages] on a file that parses to at least one
    contact, once the client has started, on a session whose rejections are
    values: it returns, having called the primitive for each contact in
    order with a timer between two calls, and writes the counters, which add
    up to the number of contacts. *)
Lemma sendBulkMessages_paced (rows : list Row) (d : option string)
      (delay : option Z) (this : Sender T) (u : unit) (c1 : T)
      (this1 : Sender T) (tr1 : list event) :
  rejectsWithValue T ->
  clientInitialize (client this) = (Fulfilled u, c1) ->
  awaitReady (setClient this c1) = (Returns tt, this1, tr1) ->
  (1 <= length (foldl onData [] rows))%nat ->
  exists this' tr sc fc,
    sendBulkMessages (FileRows rows) d delay this = (Returns tt, this', tr)
    /\ List.filter isCallOrSleep tr
       = paced (default "" d) (timerDelay (default 2000 delay))
           (foldl onData [] rows)
    /\ List.filter isSummary tr
       = [EConsole (LogSummary (length (foldl onData [] rows)) sc fc)]
    /\ (sc + fc = length (foldl onData [] rows))%nat.
Proof.
  intros Hvalue Hinit Hready Hlen.
  rewrite (sendBulkMessages_started _ _ _ _ _ _ _ _ Hinit Hready). cbv zeta.
  destruct (Nat.eqb_spec (length (foldl onData [] rows)) 0) as [|_]; [lia |].
  set (cs := foldl onData [] rows) in *.
  destruct (sendLoop_paced (default "" d) (default 2000 delay) (length cs)
              Hvalue 0 (length cs) 0 0 (setContacts this1 cs))
    as (sc & fc & this' & tr & Hrun & Hcs & Htr & Hsum & Hcount);
    [cbn; lia | lia |].
  rewrite Hrun. cbn [fst snd]. rewrite Hcs. cbn [contacts setContacts].
  cbn [contacts setContacts] in Htr. rewrite drop_0 in Htr.
  eexists this', _, sc, fc. split; [reflexivity |].
  cbn [app List.filter isCallOrSleep isCall isSleep isSummary orb].
  rewrite !List.filter_app, Htr, Hsum. cbn. rewrite app_nil_r.
  repeat split. lia.
Qed.

(** C7, amended.  When the file holds no contact, [sendBulkMessages] attempts
    no delivery and reports no counters: after starting the client and
    reading the file it writes that no contacts were found, and returns.
    Whatever the session does, the only request it gets is the one to
    start. *)
Theorem sendBulkMessages_no_contacts (rows : list Row) (d : option string)
        (delay : option Z) (this : Sender T) :
  foldl onData [] rows = [] ->
  Forall (fun e => e = EInitialize \/ e = EConsole (LogLoaded 0)
                   \/ e = EConsole LogNoContacts
                   \/ exists err, e = EConsole (LogBulkError err))
         (sendBulkMessages (FileRows rows) d delay this).2
  /\ forall u c1 this1 tr1,
      clientInitialize (client this) = (Fulfilled u, c1) ->
      awaitReady (setClient this c1) = (Returns tt, this1, tr1) ->
      sendBulkMessages (FileRows rows) d delay this
      = (Returns tt, setContacts this1 [],
         [EInitialize; EConsole (LogLoaded 0); EConsole LogNoContacts]).
Proof.
  intros Hempty.
  assert (Hstarted : forall u c1 this1 tr1,
      clientInitialize (client this) = (Fulfilled u, c1) ->
      awaitReady (setClient this c1) = (Returns tt, this1, tr1) ->
      sendBulkMessages (FileRows rows) d delay this
      = (Returns tt, setContacts this1 [],
         [EInitialize; EConsole (LogLoaded 0); EConsole LogNoContacts])).
  { intros u c1 this1 tr1 Hinit Hready.
    rewrite (sendBulkMessages_started _ _ _ _ _ _ _ _ Hinit Hready).
    now rewrite Hempty. }
  split; [| exact Hstarted].
  destruct (clientInitialize (client this)) as [[u|e] c1] eqn:Hinit.
  - destruct (awaitReady_cases (setClient this c1))
      as [(this1 & Hready & _) | Hready].
    + rewrite (Hstarted _ _ _ _ eq_refl Hready). cbn [snd].
      repeat (constructor; [auto 6 |]). constructor.
    + rewrite (sendBulkMessages_never_ready _ _ _ _ _ _ Hinit Hready).
      cbn [snd]. repeat (constructor; [auto 6 |]). constructor.
  - rewrite (sendBulkMessages_rejected _ _ _ _ _ _ Hinit). cbn [snd].
    repeat (constructor; [eauto 6 |]). constructor.
Qed.

End SendBulkMessages.

(** The fake session rejects with errors. *)
Lemma fakeSession_rejectsWithValue : rejectsWithValue FakeClient.
Proof.
  split.
  - intros p c c1. cbn. unfold fakeGetNumberId.
    repeat destruct (String.eqb _ _); discriminate.
  - intros p text c c1. cbn. unfold fakeSendMessage.
    destruct (String.eqb _ _); discriminate.
Qed.

(** The theorem at work: three contacts, of which the second cannot be sent
    to and the third is not registered. *)
Lemma sendLoop_runs_batch_three :
  rejectsWithValue FakeClient
  /\ (1 <= length (contacts (mkSender (mkFake true []) [ann; bob; dee])))%nat
  /\ exists sc fc this' tr,
      sendLoop 3 "Hi {name}" 3000 0 0 0
        (mkSender (mkFake true []) [ann; bob; dee])
      = (Returns (sc, fc), this', tr)
      /\ List.filter isCallOrSleep tr
         = [ECall ann "Hi {name}"; ESleep 3000; ECall bob "Hi {name}";
            ESleep 3000; ECall dee "Hi {name}"]
      /\ List.filter isCall tr
         = [ECall ann "Hi {name}"; ECall bob "Hi {name}"; ECall dee "Hi {name}"]
      /\ List.filter isSleep tr = [ESleep 3000; ESleep 3000]
      /\ timerDelay 3000 = 3000
      /\ (sc + fc = 3)%nat.
Proof.
  assert (Hlen : (1 <= length (contacts (mkSender (mkFake true [])
                                           [ann; bob; dee])))%nat)
    by (simpl; lia).
  assert (Hrange : 1 <= 3000 <= 2147483647) by lia.
  split; [exact fakeSession_rejectsWithValue |].
  split; [exact Hlen |].
  destruct (sendLoop_runs_batch "Hi {name}" 3000
              (mkSender (mkFake true []) [ann; bob; dee])
              fakeSession_rejectsWithValue Hlen)
    as (sc & fc & this' & tr & Hrun & Hpaced & Hcalls & Hsleeps & Hin & _
        & Hcount).
  exists sc, fc, this', tr.
  split; [exact Hrun |]. split; [exact Hpaced |]. split; [exact Hcalls |].
  split; [exact Hsleeps |]. split; [exact (Hin Hrange) | exact Hcount].
Defined.

(** C1, as stated, fails.  With a delay of 2^31 milliseconds the timer
    between the two calls is set to one millisecond: the loop does not
    suspend for the delay it was given. *)
Lemma sendLoop_delay_out_of_range :
  let this := mkSender (mkFake true []) [ann; dee] in
  (sendLoop 2 "Hi {name}" 2147483648 0 0 0 this).1.1 = Returns (1%nat, 1%nat)
  /\ List.filter isCallOrSleep
       (sendLoop 2 "Hi {name}" 2147483648 0 0 0 this).2
     = [ECall ann "Hi {name}"; ESleep 1; ECall dee "Hi {name}"]
  /\ List.filter isCallOrSleep
       (sendLoop 2 "Hi {name}" 2147483648 0 0 0 this).2
     <> paced "Hi {name}" 2147483648 (contacts this).
Proof.
  cbv zeta. split; [reflexivity |]. split; [reflexivity |]. discriminate.
Qed.

(** A delay of zero sets the same timer. *)
Example sendLoop_no_delay :
  List.filter isSleep
    (sendLoop 2 "Hi {name}" 0 0 0 0 (mkSender (mkFake true []) [ann; dee])).2
  = [ESleep 1].
Proof. reflexivity. Qed.

(** On the session that rejects with nothing the loop is over with the
    first contact: the call for it throws, and the second is never made. *)
Example sendLoop_void :
  sendLoop 2 "Hi {name}" 3000 0 0 0 (mkSender Void [ann; dee])
  = (Throws typeError, mkSender Void [ann; dee],
     [EConsole (LogProcessing 1 2 "Ann"); ECall ann "Hi {name}";
      EGetNumberId "6281234567@c.us"]).
Proof. reflexivity. Qed.

Example sendBulkMessages_two_rows :
  sendBulkMessages
    (FileRows [ {[ "name" := "Ann"; "phone" := "0812-345-67" ]};
                {[ "phone" := "6289999999"; "message" := "Yo" ]} ])
    (Some "Hi {name}") (Some 3000) fakeSender
  = (Returns tt,
     mkSender (mkFake true [("6281234567@c.us", "Hi Ann")])
       [mkContact "Ann" "6281234567@c.us" None;
        mkContact "Unknown" "6289999999@c.us" (Some "Yo")],
     [EInitialize; EConsole (LogLoaded 2); EConsole (LogStarting 2);
      EConsole (LogDelay 3000); EConsole (LogProcessing 1 2 "Ann");
      ECall (mkContact "Ann" "6281234567@c.us" None) "Hi {name}";
      EGetNumberId "6281234567@c.us";
      ESendMessage "6281234567@c.us" "Hi Ann";
      EConsole (LogSent "Ann" "6281234567@c.us");
      EConsole (LogWaiting 3000); ESleep 3000;
      EConsole (LogProcessing 2 2 "Unknown");
      ECall (mkContact "Unknown" "6289999999@c.us" (Some "Yo")) "Hi {name}";
      EGetNumberId "6289999999@c.us"; ESendMessage "6289999999@c.us" "Yo";
      EConsole (LogSendFailed "Unknown" "6289999999@c.us" "Protocol error");
      EConsole (LogSummary 2 1 1)]).
Proof. reflexivity. Qed.

(** C7, as stated, fails.  On a file without contacts the session has been
    asked to start before the file is read, and no counters are reported:
    the function writes one line about the missing contacts and returns
    nothing. *)
Lemma sendBulkMessages_empty_file_starts_session :
  sendBulkMessages (FileRows []) (Some "Hi {name}") (Some 3000) fakeSender
  = (Returns tt, mkSender (mkFake true []) [],
     [EInitialize; EConsole (LogLoaded 0); EConsole LogNoContacts])
  /\ List.filter isTransport
       (sendBulkMessages (FileRows []) (Some "Hi {name}") (Some 3000)
          fakeSender).2
     = [EInitialize]
  /\ ~ In (EConsole (LogSummary 0 0 0))
       (sendBulkMessages (FileRows []) (Some "Hi {name}") (Some 3000)
          fakeSender).2.
Proof.
  split; [reflexivity |]. split; [reflexivity |].
  intros [Hin|[Hin|[Hin|[]]]]; discriminate.
Qed.

(** The amended statement at work: the only row has an empty phone. *)
Lemma sendBulkMessages_no_contacts_nobody :
  foldl onData [] [ ({[ "name" := "Nobody"; "phone" := "" ]} : Row) ] = []
  /\ sendBulkMessages
       (FileRows [ {[ "name" := "Nobody"; "phone" := "" ]} ])
       None None fakeSender
     = (Returns tt, mkSender (mkFake true []) [],
        [EInitialize; EConsole (LogLoaded 0); EConsole LogNoContacts]).
Proof.
  assert (Hempty : foldl onData []
                     [ ({[ "name" := "Nobody"; "phone" := "" ]} : Row) ] = [])
    by reflexivity.
  split; [exact Hempty |].
  apply (proj2 (sendBulkMessages_no_contacts _ None None fakeSender Hempty)
               tt (mkFake false []) (mkSender (mkFake true []) []) []);
    reflexivity.
Defined.

(** ** The gateway *)

Lemma lookup_snoc {A} (l : list A) (x : A) : (l ++ [x]) !! length l = Some x.
Proof. induction l as [|y l IH]; [reflexivity | exact IH]. Qed.

Lemma insert_snoc {A} (l : list A) (x y : A) :
  <[length l := y]> (l ++ [x]) = l ++ [y].
Proof. induction l as [|z l IH]; [reflexivity |]. simpl. now rewrite IH. Qed.

Section GatewayProperties.

Context {T : Type} `{Session T}.

Lemma on_run {A} (ref : nat) (m : Eff (Sender T) event A) (srv : Server T)
      (this : Sender T) :
  heap srv !! ref = Some this ->
  on ref m srv
  = ((m this).1.1,
     mkServer (senderInstance srv) (<[ref := (m this).1.2]> (heap srv)),
     map (GOn ref) (m this).2).
Proof. intros Hthis. unfold on. rewrite Hthis. now destruct (m this) as [[r t] tr]. Qed.

Lemma onSenderInstance_run {A} (m : Eff (Sender T) event A) (srv : Server T)
      (ref : nat) (this : Sender T) :
  senderInstance srv = Some ref ->
  heap srv !! ref = Some this ->
  onSenderInstance m srv
  = ((m this).1.1,
     mkServer (Some ref) (<[ref := (m this).1.2]> (heap srv)),
     map (GOn ref) (m this).2).
Proof.
  intros Href Hthis. unfold onSenderInstance, bind, get. rewrite Href.
  rewrite (on_run _ _ _ _ Hthis), Href. reflexivity.
Qed.

(** A second call finds the variable set and returns at once. *)
Lemma initWhatsAppClient_again (srv : Server T) (ref : nat) :
  senderInstance srv = Some ref ->
  initWhatsAppClient srv = (Returns tt, srv, []).
Proof. intros Href. unfold initWhatsAppClient, bind, get. now rewrite Href. Qed.

(** The first call makes the object, starts its client and waits. *)
Lemma initWhatsAppClient_first (srv : Server T) :
  senderInstance srv = None ->
  initWhatsAppClient srv =
  let ref := length (heap srv) in
  match clientInitialize newClient with
  | (Rejected e, c1) =>
      (Throws e, mkServer (Some ref) (heap srv ++ [mkSender c1 []]),
       [GNew ref; GOn ref EInitialize])
  | (Fulfilled _, c1) =>
      ((awaitReady (mkSender c1 [])).1.1,
       mkServer (Some ref) (heap srv ++ [(awaitReady (mkSender c1 [])).1.2]),
       [GNew ref; GOn ref EInitialize])
  end.
Proof.
  intros Hnone. unfold initWhatsAppClient. unfold bind at 1. unfold get at 1.
  rewrite Hnone. unfold bind at 1. unfold newSender at 1.
  unfold bind at 1. unfold assignSenderInstance at 1. cbn [heap].
  unfold bind at 1.
  rewrite (onSenderInstance_run _ _ (length (heap srv)) (mkSender newClient []));
    [| reflexivity | apply lookup_snoc].
  cbn [heap senderInstance]. rewrite insert_snoc.
  unfold request, settle, bind, emit. cbn [client fst snd].
  destruct (clientInitialize newClient) as [[u|e] c1]; cbn [fst snd map app].
  - rewrite (onSenderInstance_run _ _ (length (heap srv)) (mkSender c1 []));
      [| reflexivity | apply lookup_snoc].
    cbn [heap]. rewrite insert_snoc.
    assert (Hq : (awaitReady (mkSender c1 [])).2 = []).
    { unfold awaitReady. destruct (clientInfo _); [reflexivity |].
      now destruct (clientReady _). }
    rewrite Hq. reflexivity.
  - reflexivity.
Qed.

(** When [initWhatsAppClient] returns, the variable refers to an object, and
    all that happened is, at most, that the object was made and its client
    started. *)
Lemma initWhatsAppClient_returns (srv srv1 : Server T) (tr1 : list gevent) :
  bound srv ->
  initWhatsAppClient srv = (Returns tt, srv1, tr1) ->
  exists ref this,
    senderInstance srv1 = Some ref
    /\ heap srv1 !! ref = Some this
    /\ (tr1 = [] \/ tr1 = [GNew ref; GOn ref EInitialize]).
Proof.
  intros Hbound. destruct (senderInstance srv) as [ref|] eqn:Href.
  - rewrite (initWhatsAppClient_again _ _ Href). intros [= <- <-].
    destruct (Hbound ref Href) as [this Hthis]. exists ref, this. auto.
  - rewrite (initWhatsAppClient_first _ Href). cbv zeta.
    destruct (clientInitialize newClient) as [[u|e] c1]; [| discriminate].
    intros [= Hr <- <-]. eexists _, _. cbn [senderInstance heap].
    split; [reflexivity |]. split; [apply lookup_snoc | now right].
Qed.

(** What [initWhatsAppClient] does is make the object and start its client,
    whatever comes of it. *)
Lemma initWhatsAppClient_trace (srv : Server T) :
  (initWhatsAppClient srv).2 = []
  \/ (initWhatsAppClient srv).2
     = [GNew (length (heap srv)); GOn (length (heap srv)) EInitialize].
Proof.
  destruct (senderInstance srv) as [ref|] eqn:Href.
  - left. now rewrite (initWhatsAppClient_again _ _ Href).
  - right. rewrite (initWhatsAppClient_first _ Href). cbv zeta.
    now destruct (clientInitialize newClient) as [[u|e] c1].
Qed.

(** The handler on a body that has a phone and a message, by what comes of
    the two calls it awaits. *)
Lemma postSendMessage_valid (body : Body) (srv : Server T)
      (phone message : string) :
  body_phone body = Some phone -> JsString.truthy phone = true ->
  body_message body = Some message -> JsString.truthy message = true ->
  postSendMessage body srv =
  let contact := requestContact body phone message in
  match initWhatsAppClient srv with
  | (Returns _, srv1, tr1) =>
      match onSenderInstance (sendMessage contact None) srv1 with
      | (Returns b, srv2, tr2) =>
          (Returns (if b then sentResponse contact else failedResponse contact),
           srv2, tr1 ++ tr2)
      | (Throws e, srv2, tr2) => (caughtResponse e, srv2, tr1 ++ tr2)
      | (Hangs, srv2, tr2) => (Hangs, srv2, tr1 ++ tr2)
      end
  | (Throws e, srv1, tr1) => (caughtResponse e, srv1, tr1)
  | (Hangs, srv1, tr1) => (Hangs, srv1, tr1)
  end.
Proof.
  intros Hphone Hp Hmessage Hm. unfold postSendMessage.
  rewrite Hphone, Hmessage, Hp, Hm. cbn [negb orb]. cbv zeta.
  fold (requestContact body phone message).
  unfold tryCatch. unfold bind at 1.
  destruct (initWhatsAppClient srv) as [[[[]|e|] srv1] tr1].
  - unfold bind at 1.
    destruct (onSenderInstance _ srv1) as [[[b|e|] srv2] tr2].
    + destruct b; unfold ret; now rewrite !app_nil_r.
    + destruct e; unfold readMessage, bind, ret, throw; cbn;
        now rewrite !app_nil_r.
    + reflexivity.
  - destruct e; unfold readMessage, bind, ret, throw; cbn;
      now rewrite !app_nil_r.
  - reflexivity.
Qed.

(** C9.  A body whose phone or message is missing (or empty) is answered
    with status 400 and the error "phone and message are required", and
    nothing else happens: no object is made, no client started, no delivery
    attempted.  For a body that has both, once [initWhatsAppClient] has
    returned, the delivery primitive is called, and when it returns a
    boolean the answer is the success object with status 200 when it is
    [true], the failure object with status 500 when it is [false].  The
    primitive does return a boolean unless the session rejects a check or a
    send with [undefined] or [null]; then it throws, and the answer is the
    error object with status 500. *)
Theorem postSendMessage_responses (body : Body) (srv : Server T) :
  bound srv ->
  (JsString.truthyOpt (body_phone body) = false
   \/ JsString.truthyOpt (body_message body) = false ->
   postSendMessage body srv
   = (Returns (mkResponse 400 [("error", "phone and message are required")]),
      srv, []))
  /\ (forall phone message srv1 tr1,
        body_phone body = Some phone -> JsString.truthy phone = true ->
        body_message body = Some message -> JsString.truthy message = true ->
        initWhatsAppClient srv = (Returns tt, srv1, tr1) ->
        let contact := requestContact body phone message in
        exists srv2 tr2,
          (exists b,
              onSenderInstance (sendMessage contact None) srv1
              = (Returns b, srv2, tr2)
              /\ postSendMessage body srv
                 = (Returns
                      (if b
                       then mkResponse 200
                              [("status", "success");
                               ("detail", "Message sent to " +:+ name contact)]
                       else mkResponse 500
                              [("status", "failed");
                               ("detail",
                                "Failed to send message to "
                                  +:+ name contact)]),
                    srv2, tr1 ++ tr2))
          \/ (~ rejectsWithValue T
              /\ onSenderInstance (sendMessage contact None) srv1
                 = (Throws typeError, srv2, tr2)
              /\ postSendMessage body srv
                 = (Returns
                      (mkResponse 500 [("error", error_message typeError)]),
                    srv2, tr1 ++ tr2))).
Proof.
  intros Hbound. split.
  - unfold postSendMessage, JsString.truthyOpt.
    destruct (body_phone body) as [phone|], (body_message body) as [message|];
      intros [Hmiss|Hmiss]; try discriminate; try reflexivity;
      rewrite Hmiss; cbn [negb orb]; try reflexivity.
    now rewrite orb_true_r.
  - intros phone message srv1 tr1 Hphone Hp Hmessage Hm Hinit contact.
    rewrite (postSendMessage_valid _ _ _ _ Hphone Hp Hmessage Hm), Hinit.
    cbv zeta. fold contact.
    destruct (initWhatsAppClient_returns _ _ _ Hbound Hinit)
      as (ref & this & Href & Hthis & _).
    rewrite (onSenderInstance_run _ _ _ _ Href Hthis), sendMessage_delivery.
    cbn [fst snd]. eexists _, _.
    destruct (delivery_outcome contact (default "" None) (client this))
      as [[b Hb] | [Hb Hf]]; rewrite Hb.
    + left. exists b. split; reflexivity.
    + right. split; [exact (faultsWith_nullish _ _ _ Hf) |].
      split; reflexivity.
Qed.

(** The text for a contact named "Unknown" that has a message of its own. *)
Lemma unknown_text (p m : string) :
  JsString.truthy m = true ->
  let c := mkContact "Unknown" p (Some m) in
  JsString.truthy (JsString.orString (message c) "") = true
  /\ JsString.replace (JsString.orString (message c) "") "{name}" (name c)
     = replaceFirst "{name}" "Unknown" m
  /\ phone c = p.
Proof.
  intros Hm. simpl. rewrite Hm. split; [exact Hm |].
  split; [now apply replace_dollarFree | reflexivity].
Qed.

(** C10.  For a body with a phone and a message and without a name, the
    handler calls the delivery primitive, if at all, for the contact named
    "Unknown" with the normalized phone and the body's message, and with no
    default message; it does call it once [initWhatsAppClient] has returned;
    whatever is sent goes to the normalized phone and is the body's message
    with its first [{name}] replaced by "Unknown"; and that text is sent to
    that phone once [initWhatsAppClient] has returned and the session has
    answered that the number is registered. *)
Theorem postSendMessage_unknown_name (body : Body) (srv : Server T)
        (phone message : string) :
  bound srv ->
  body_name body = None ->
  body_phone body = Some phone -> JsString.truthy phone = true ->
  body_message body = Some message -> JsString.truthy message = true ->
  let contact := mkContact "Unknown" (formatPhoneNumber phone) (Some message) in
  (forall ref c d,
      In (GOn ref (ECall c d)) (postSendMessage body srv).2 ->
      c = contact /\ d = "")
  /\ (forall ref p text,
        In (GOn ref (ESendMessage p text)) (postSendMessage body srv).2 ->
        p = formatPhoneNumber phone
        /\ text = replaceFirst "{name}" "Unknown" message)
  /\ (forall srv1 tr1,
        initWhatsAppClient srv = (Returns tt, srv1, tr1) ->
        exists ref, In (GOn ref (ECall contact "")) (postSendMessage body srv).2)
  /\ (forall srv1 tr1 ref this id c1,
        initWhatsAppClient srv = (Returns tt, srv1, tr1) ->
        senderInstance srv1 = Some ref ->
        heap srv1 !! ref = Some this ->
        clientGetNumberId (formatPhoneNumber phone) (client this)
        = (Fulfilled (Some id), c1) ->
        In (GOn ref (ESendMessage (formatPhoneNumber phone)
                       (replaceFirst "{name}" "Unknown" message)))
           (postSendMessage body srv).2).
Proof.
  intros Hbound Hname Hphone Hp Hmessage Hm contact.
  rewrite (postSendMessage_valid _ _ _ _ Hphone Hp Hmessage Hm). cbv zeta.
  assert (Hcontact : requestContact body phone message = contact).
  { unfold requestContact. now rewrite Hname. }
  rewrite Hcontact. clear Hcontact.
  pose proof (initWhatsAppClient_trace srv) as Htrace.
  destruct (initWhatsAppClient srv) as [[r srv1] tr1] eqn:Hinit.
  cbn [snd] in Htrace.
  assert (Hquiet : forall ref e, In (GOn ref e) tr1 -> e = EInitialize).
  { intros ref e. destruct Htrace as [-> | ->]; [intros [] |].
    intros [Hin|[Hin|[]]]; [discriminate | now injection Hin]. }
  destruct r as [[]|e|].
  - destruct (initWhatsAppClient_returns _ _ _ Hbound Hinit)
      as (ref0 & this & Href & Hthis & _).
    rewrite (onSenderInstance_run _ _ _ _ Href Hthis), sendMessage_delivery.
    cbn [fst snd default map].
    assert (Hin : forall ref e,
               In (GOn ref e)
                  (tr1 ++ GOn ref0 (ECall contact "")
                       :: map (GOn ref0) (delivery contact "" (client this)).2) ->
               e = EInitialize \/ e = ECall contact ""
               \/ In e (delivery contact "" (client this)).2).
    { intros ref e [Hin|[Hin|Hin]]%in_app_iff.
      - left. eapply Hquiet, Hin.
      - right. left. now injection Hin.
      - right. right. apply in_map_iff in Hin as (e' & [= _ ->] & Hin).
        exact Hin. }
    destruct (unknown_text (formatPhoneNumber phone) message Hm)
      as (Htruthy & Htext & Hto).
    fold contact in Htruthy, Htext, Hto.
    assert (Hsnd : forall (r : completion bool) (f : bool -> Response)
                          (srv2 : Server T) (tr : list gevent),
               (match r with
                | Returns b => (Returns (f b), srv2, tr)
                | Throws e => (caughtResponse e, srv2, tr)
                | Hangs => (Hangs, srv2, tr)
                end).2 = tr) by (now intros [| |]).
    rewrite Hsnd. clear Hsnd.
    split; [| split; [| split]].
    + intros ref c d [Hc|[Hc|Hc]]%Hin; [discriminate | now injection Hc |].
      now apply delivery_no_call in Hc.
    + intros ref p text [Hc|[Hc|Hc]]%Hin; [discriminate | discriminate |].
      apply delivery_sends in Hc as [-> ->]. now split.
    + intros _ _ _. exists ref0. apply in_app_iff. right. now left.
    + intros srv' tr' ref this' id c1 [= <- <-] Href' Hthis' Hg.
      rewrite Href in Href'. injection Href' as <-.
      rewrite Hthis in Hthis'. injection Hthis' as <-.
      apply in_app_iff. right. right. apply in_map.
      rewrite <- Htext. unfold delivery. rewrite Htruthy, Hto, Hg.
      destruct (clientSendMessage _ _ _) as [[u|e] c2]; cbn [snd];
        right; now left.
  - cbn [snd]. destruct (caughtResponse e); cbn [snd];
      (split; [| split; [| split]]);
      first [ intros ref c d Hc%Hquiet; discriminate
            | intros srv' tr' ref this id c1; discriminate
            | intros srv' tr'; discriminate ].
  - cbn [snd]. split; [| split; [| split]].
    + intros ref c d Hc%Hquiet. discriminate.
    + intros ref p text Hc%Hquiet. discriminate.
    + intros srv' tr'. discriminate.
    + intros srv' tr' ref this id c1. discriminate.
Qed.

End GatewayProperties.

(** ** Interleaved calls of initWhatsAppClient *)

Section InterleavingProperties.

Context {T : Type} `{Session T}.

Lemma quiet_refl (srv : Server T) : quiet srv srv [].
Proof. repeat split. Qed.

Lemma quiet_trans (a b c : Server T) (t1 t2 : list gevent) :
  quiet a b t1 -> quiet b c t2 -> quiet a c (t1 ++ t2).
Proof.
  intros (Hs1 & Hl1 & Hn1 & Hi1) (Hs2 & Hl2 & Hn2 & Hi2).
  repeat split; try congruence; rewrite List.filter_app.
  - now rewrite Hn1, Hn2.
  - now rewrite Hi1, Hi2.
Qed.

Lemma Quiet_ret {A} (a : A) : Quiet (ret a : Eff (Server T) gevent A).
Proof. intros srv. apply quiet_refl. Qed.

Lemma Quiet_bind {A B} (m : Eff (Server T) gevent A)
      (f : A -> Eff (Server T) gevent B) :
  Quiet m -> (forall a, Quiet (f a)) -> Quiet (bind m f).
Proof.
  intros Hm Hf srv. specialize (Hm srv). unfold bind.
  destruct (m srv) as [[[a|e|] srv1] tr1]; cbn [fst snd] in *; try exact Hm.
  specialize (Hf a srv1). destruct (f a srv1) as [[r srv2] tr2].
  cbn [fst snd] in *. eapply quiet_trans; eassumption.
Qed.

(** A method that does not start the client is a quiet piece. *)
Lemma Quiet_on {A} (ref : nat) (m : Eff (Sender T) event A) :
  (forall this, ~ In EInitialize (m this).2) -> Quiet (on ref m).
Proof.
  intros Hm srv. unfold on. destruct (heap srv !! ref) as [this|];
    [| apply quiet_refl].
  specialize (Hm this). destruct (m this) as [[r this'] tr]. cbn [fst snd] in *.
  repeat split.
  - cbn [heap]. apply length_insert.
  - clear Hm. induction tr as [|e tr IH]; [reflexivity | exact IH].
  - induction tr as [|e tr IH]; [reflexivity |]. cbn [map List.filter].
    destruct e; cbn [isInitialize]; try (apply IH; intros Hin; apply Hm;
      now right).
    exfalso. apply Hm. now left.
Qed.

Lemma Quiet_onSenderInstance {A} (m : Eff (Sender T) event A) :
  (forall this, ~ In EInitialize (m this).2) -> Quiet (onSenderInstance m).
Proof.
  intros Hm. unfold onSenderInstance. apply Quiet_bind.
  - intros srv. apply quiet_refl.
  - intros srv. destruct (senderInstance srv); [now apply Quiet_on |].
    intros srv'. apply quiet_refl.
Qed.

Lemma Quiet_initResume : Quiet initResume.
Proof.
  unfold initResume. apply Quiet_bind.
  - apply Quiet_onSenderInstance. intros this. unfold settle.
    destruct (clientInitialize _) as [[u|e] c]; intros [].
  - intros _. apply Quiet_bind.
    + apply Quiet_onSenderInstance. intros this [].
    + intros [|]; apply Quiet_ret.
Qed.

Lemma Quiet_readyFires : Quiet readyFires.
Proof.
  unfold readyFires. apply Quiet_bind; [| intros _; apply Quiet_ret].
  apply Quiet_onSenderInstance. intros this.
  destruct (clientReady _); intros [].
Qed.

Lemma Quiet_deliver (contact : Contact) (d : option string) :
  Quiet (onSenderInstance (sendMessage contact d)).
Proof.
  apply Quiet_onSenderInstance. intros this. rewrite sendMessage_delivery.
  cbn [snd]. intros [Hin|Hin]; [discriminate |].
  now apply delivery_quiet in Hin.
Qed.

(** The first piece of the first call: the object, the assignment, the call
    of [initialize]. *)
Lemma initEnter_first (srv : Server T) :
  senderInstance srv = None ->
  initEnter srv
  = (Returns AwaitingInitialize,
     mkServer (Some (length (heap srv))) (heap srv ++ [mkSender newClient []]),
     [GNew (length (heap srv)); GOn (length (heap srv)) EInitialize]).
Proof.
  intros Hnone. unfold initEnter. unfold bind at 1. unfold get at 1.
  rewrite Hnone. unfold bind at 1. unfold newSender at 1.
  unfold bind at 1. unfold assignSenderInstance at 1. cbn [heap].
  unfold bind at 1.
  rewrite (onSenderInstance_run _ _ (length (heap srv)) (mkSender newClient []));
    [| reflexivity | apply lookup_snoc].
  cbn [heap fst snd emit map]. now rewrite insert_snoc.
Qed.

(** The first piece of any later call: nothing to do. *)
Lemma initEnter_again (srv : Server T) (ref : nat) :
  senderInstance srv = Some ref ->
  initEnter srv = (Returns Returned, srv, []).
Proof. intros Href. unfold initEnter, bind, get. now rewrite Href. Qed.

(** Cutting [initWhatsAppClient] into its pieces loses nothing: run one
    after the other, they are the function. *)
Lemma initWhatsAppClient_pieces (srv : Server T) :
  initWhatsAppClient srv = initUninterrupted srv.
Proof.
  unfold initUninterrupted. unfold bind at 1.
  destruct (senderInstance srv) as [ref|] eqn:Href.
  - now rewrite (initWhatsAppClient_again _ _ Href), (initEnter_again _ _ Href).
  - rewrite (initWhatsAppClient_first _ Href), (initEnter_first _ Href).
    cbv zeta. unfold initResume. unfold bind at 1. unfold bind at 1.
    rewrite (onSenderInstance_run _ _ (length (heap srv)) (mkSender newClient []));
      [| reflexivity | apply lookup_snoc].
    cbn [heap]. rewrite insert_snoc. unfold settle. cbn [client].
    destruct (clientInitialize newClient) as [[u|e] c1]; cbn [fst snd map];
      [| reflexivity].
    unfold bind at 1.
    rewrite (onSenderInstance_run _ _ (length (heap srv)) (mkSender c1 []));
      [| reflexivity | apply lookup_snoc].
    cbn [heap fst snd map client]. rewrite insert_snoc.
    unfold awaitReady. cbn [client].
    destruct (clientInfo c1); [reflexivity |].
    unfold ret at 1. unfold readyFires. unfold bind at 1. unfold bind at 1.
    rewrite (onSenderInstance_run _ _ (length (heap srv)) (mkSender c1 []));
      [| reflexivity | apply lookup_snoc].
    cbn [heap client]. rewrite insert_snoc.
    destruct (clientReady c1) as [c2|]; reflexivity.
Qed.

Lemma single_quiet (sys : System T) (srv : Server T) (cs : list Caller)
      (tr : list gevent) :
  single sys -> callers sys <> [] -> cs <> [] ->
  quiet (server sys) srv tr ->
  single (mkSystem srv cs (history sys ++ tr)).
Proof.
  intros [(_ & _ & Hcallers & _) | (Href & Hlen & _ & Hnew & Hini)] Hne Hcs
         (Hs & Hl & Hn & Hi); [contradiction |].
  right. cbn [server callers history]. rewrite !List.filter_app, Hn, Hi.
  rewrite !app_nil_r. repeat split; try congruence.
Qed.

Lemma insert_not_nil {A} (l : list A) (k : nat) (x y : A) :
  l !! k = Some y -> <[k := x]> l <> [].
Proof.
  intros Hk Hnil. apply (f_equal length) in Hnil.
  rewrite length_insert in Hnil. destruct l; discriminate.
Qed.

Lemma lookup_not_nil {A} (l : list A) (k : nat) (y : A) :
  l !! k = Some y -> l <> [].
Proof. intros Hk ->. discriminate. Qed.

(** Every step keeps the gateway as [single] says. *)
Lemma step_single (sys sys' : System T) :
  single sys -> step sys sys' -> single sys'.
Proof.
  intros Hsingle Hstep.
  destruct Hstep as [sys r srv tr c Hrun Hland
                    | sys k r srv tr c Hk Hrun Hland
                    | sys k r srv tr c Hk Hrun Hland
                    | sys k contact r srv tr Hk Hrun].
  - destruct Hsingle as [(Hnone & Hheap & Hcallers & Hhist)
                        | (Href & Hlen & Hne & Hnew & Hini)].
    + rewrite (initEnter_first _ Hnone), Hheap in Hrun.
      injection Hrun as <- <- <-. right. cbn [server callers history].
      rewrite Hhist. repeat split. now destruct (callers sys).
    + assert (Hs : single sys) by (right; auto).
      rewrite (initEnter_again _ _ Href) in Hrun. injection Hrun as <- <- <-.
      apply single_quiet; auto using quiet_refl. now destruct (callers sys).
  - pose proof (Quiet_initResume (server sys)) as Hq. rewrite Hrun in Hq.
    apply single_quiet; eauto using insert_not_nil, lookup_not_nil.
  - pose proof (Quiet_readyFires (server sys)) as Hq. rewrite Hrun in Hq.
    apply single_quiet; eauto using insert_not_nil, lookup_not_nil.
  - pose proof (Quiet_deliver contact None (server sys)) as Hq.
    rewrite Hrun in Hq.
    apply single_quiet; eauto using lookup_not_nil.
Qed.

Lemma reachable_single (sys : System T) : rtc step boot sys -> single sys.
Proof.
  revert sys. apply rtc_ind_r.
  - left. repeat split.
  - intros sys sys' _ Hstep IH. eapply step_single; eassumption.
Qed.

(** However calls of [initWhatsAppClient] interleave with each other and
    with deliveries, at most one sender object is ever made and
    [initialize()] is called at most once; as soon as one call has been made
    the variable [senderInstance] refers to that one object, for every
    caller; and from then on a call returns at once, leaving everything as it
    is, whether the client is ready or not. *)
Lemma initWhatsAppClient_single_session (sys : System T) :
  rtc step boot sys ->
  (length (heap (server sys)) <= 1)%nat
  /\ length (List.filter isNew (history sys)) = length (heap (server sys))
  /\ length (List.filter isInitialize (history sys))
     = length (heap (server sys))
  /\ (callers sys <> [] ->
      senderInstance (server sys) = Some 0%nat
      /\ length (heap (server sys)) = 1%nat
      /\ initEnter (server sys) = (Returns Returned, server sys, [])
      /\ initWhatsAppClient (server sys) = (Returns tt, server sys, [])).
Proof.
  intros Hreach. apply reachable_single in Hreach.
  destruct Hreach as [(Hnone & Hheap & Hcallers & Hhist)
                     | (Href & Hlen & Hne & Hnew & Hini)].
  - rewrite Hheap, Hhist. repeat split; try reflexivity; try contradiction.
    cbn. lia.
  - rewrite Hlen, Hnew, Hini. repeat split; try reflexivity.
    + exact Href.
    + now apply initEnter_again with 0%nat.
    + now apply initWhatsAppClient_again with 0%nat.
Qed.

End InterleavingProperties.

(** ** The gateway on the fake session *)

Lemma bound_loaded : bound loaded.
Proof. intros ref Href. discriminate. Qed.

Example postSendMessage_greeting :
  postSendMessage greeting loaded
  = (Returns (mkResponse 200 [("status", "success");
                              ("detail", "Message sent to Unknown")]),
     mkServer (Some 0%nat)
       [mkSender
          (mkFake true [("6281234567@c.us", "Hi Unknown, hi {name}")]) []],
     [GNew 0; GOn 0 EInitialize;
      GOn 0 (ECall (mkContact "Unknown" "6281234567@c.us"
                      (Some "Hi {name}, hi {name}")) "");
      GOn 0 (EGetNumberId "6281234567@c.us");
      GOn 0 (ESendMessage "6281234567@c.us" "Hi Unknown, hi {name}");
      GOn 0 (EConsole (LogSent "Unknown" "6281234567@c.us"))]).
Proof. reflexivity. Qed.

(** The theorem at work: a body without a phone, and a body that leads to a
    delivery. *)
Lemma postSendMessage_responses_loaded :
  postSendMessage noPhone loaded
  = (Returns (mkResponse 400 [("error", "phone and message are required")]),
     loaded, [])
  /\ exists b srv2 tr2,
      onSenderInstance
        (sendMessage (requestContact greeting "0812-345-67"
                        "Hi {name}, hi {name}") None)
        (mkServer (Some 0%nat) [mkSender (mkFake true []) []])
      = (Returns b, srv2, tr2)
      /\ postSendMessage greeting loaded
         = (Returns
              (if b
               then mkResponse 200
                      [("status", "success");
                       ("detail",
                        "Message sent to "
                          +:+ name (requestContact greeting "0812-345-67"
                                      "Hi {name}, hi {name}"))]
               else mkResponse 500
                      [("status", "failed");
                       ("detail",
                        "Failed to send message to "
                          +:+ name (requestContact greeting "0812-345-67"
                                      "Hi {name}, hi {name}"))]),
            srv2, [GNew 0; GOn 0 EInitialize] ++ tr2).
Proof.
  split.
  - apply (proj1 (postSendMessage_responses noPhone loaded bound_loaded)).
    left. reflexivity.
  - assert (Hinit : initWhatsAppClient loaded
                    = (Returns tt,
                       mkServer (Some 0%nat) [mkSender (mkFake true []) []],
                       [GNew 0; GOn 0 EInitialize])) by reflexivity.
    destruct (proj2 (postSendMessage_responses greeting loaded bound_loaded)
                "0812-345-67" "Hi {name}, hi {name}" _ _
                eq_refl eq_refl eq_refl eq_refl Hinit)
      as (srv2 & tr2 & [(b & Hrun & Hanswer) | (Hvoid & _)]).
    + exists b, srv2, tr2. split; [exact Hrun | exact Hanswer].
    + destruct (Hvoid fakeSession_rejectsWithValue).
Defined.

(** On the session that rejects with nothing the primitive throws, and the
    handler answers with the error. *)
Example postSendMessage_void :
  postSendMessage greeting (mkServer (Some 0%nat) [mkSender Void []])
  = (Returns (mkResponse 500 [("error", error_message typeError)]),
     mkServer (Some 0%nat) [mkSender Void []],
     [GOn 0 (ECall (mkContact "Unknown" "6281234567@c.us"
                      (Some "Hi {name}, hi {name}")) "");
      GOn 0 (EGetNumberId "6281234567@c.us")]).
Proof. reflexivity. Qed.

(** The theorem at work: the greeting has no name. *)
Lemma postSendMessage_unknown_name_greeting :
  (forall ref c d,
      In (GOn ref (ECall c d)) (postSendMessage greeting loaded).2 ->
      c = mkContact "Unknown" (formatPhoneNumber "0812-345-67")
            (Some "Hi {name}, hi {name}")
      /\ d = "")
  /\ (forall ref p text,
        In (GOn ref (ESendMessage p text)) (postSendMessage greeting loaded).2 ->
        p = formatPhoneNumber "0812-345-67"
        /\ text = replaceFirst "{name}" "Unknown" "Hi {name}, hi {name}")
  /\ (exists ref,
        In (GOn ref (ECall (mkContact "Unknown"
                              (formatPhoneNumber "0812-345-67")
                              (Some "Hi {name}, hi {name}")) ""))
           (postSendMessage greeting loaded).2)
  /\ In (GOn 0 (ESendMessage (formatPhoneNumber "0812-345-67")
                  (replaceFirst "{name}" "Unknown" "Hi {name}, hi {name}")))
        (postSendMessage greeting loaded).2.
Proof.
  destruct (postSendMessage_unknown_name greeting loaded "0812-345-67"
              "Hi {name}, hi {name}" bound_loaded eq_refl eq_refl eq_refl
              eq_refl eq_refl)
    as (Hcall & Hsend & Hcalled & Hsent).
  split; [exact Hcall |]. split; [exact Hsend |]. split.
  - apply (Hcalled (mkServer (Some 0%nat) [mkSender (mkFake true []) []])
                   [GNew 0; GOn 0 EInitialize]).
    reflexivity.
  - apply (Hsent (mkServer (Some 0%nat) [mkSender (mkFake true []) []])
                 [GNew 0; GOn 0 EInitialize] 0%nat
                 (mkSender (mkFake true []) []) "6281234567@c.us"
                 (mkFake true []));
      reflexivity.
Defined.

(** C6 at two calls, the second made while the first waits for
    [initialize()].  The second call finds [senderInstance] set, by the first
    call, and returns at once: what it hands to its caller is the one
    session there is, which is not ready; [initialize()] has not settled,
    [client.info] is not set, and the first call is still waiting. *)
Theorem initWhatsAppClient_returns_before_ready :
  rtc step boot secondCallMade
  /\ callers secondCallMade = [AwaitingInitialize; Returned]
  /\ senderInstance (server secondCallMade) = Some 0%nat
  /\ (client <$> heap (server secondCallMade) !! 0%nat) = Some newClient
  /\ clientInfo (newClient : FakeClient) = false
  /\ initWhatsAppClient (server secondCallMade)
     = (Returns tt, server secondCallMade, []).
Proof.
  split; [| repeat split; reflexivity].
  eapply rtc_l.
  { eapply (step_call boot); [reflexivity | reflexivity]. }
  eapply rtc_l.
  { eapply step_call; [reflexivity | reflexivity]. }
  apply rtc_refl.
Qed.

(** Two calls, the second made before the first is through, once both have
    returned. *)
Lemma initWhatsAppClient_single_session_two_calls :
  rtc step boot bothReturned
  /\ (length (heap (server bothReturned)) <= 1)%nat
  /\ length (List.filter isNew (history bothReturned))
     = length (heap (server bothReturned))
  /\ length (List.filter isInitialize (history bothReturned))
     = length (heap (server bothReturned))
  /\ senderInstance (server bothReturned) = Some 0%nat
  /\ initEnter (server bothReturned)
     = (Returns Returned, server bothReturned, [])
  /\ initWhatsAppClient (server bothReturned)
     = (Returns tt, server bothReturned, []).
Proof.
  assert (Hreach : rtc step boot bothReturned).
  { eapply rtc_l.
    { eapply (step_call boot); [reflexivity | reflexivity]. }
    eapply rtc_l.
    { eapply step_call; [reflexivity | reflexivity]. }
    eapply rtc_l.
    { eapply (step_initialized _ 0%nat);
        [reflexivity | reflexivity | reflexivity]. }
    eapply rtc_l.
    { eapply (step_ready _ 0%nat); [reflexivity | reflexivity | reflexivity]. }
    apply rtc_refl. }
  split; [exact Hreach |].
  destruct (initWhatsAppClient_single_session bothReturned Hreach)
    as (Hone & Hnew & Hinit & Hlater).
  destruct Hlater as (Href & _ & Henter & Hagain); [discriminate |].
  repeat split; assumption.
Defined.

(** * More of the code *)

(** ** formatPhoneNumber, used again and again *)

Lemma removeNonDigits_append (a b : string) :
  JsString.removeNonDigits (a +:+ b)
  = JsString.removeNonDigits a +:+ JsString.removeNonDigits b.
Proof.
  induction a as [|c a IH]; [reflexivity |].
  rewrite append_cons. simpl. destruct (JsString.isDigit c); [| exact IH].
  rewrite append_cons. now rewrite IH.
Qed.

Lemma removeNonDigits_allDigits (d : string) :
  allDigits d = true -> JsString.removeNonDigits d = d.
Proof.
  induction d as [|c d IH]; [reflexivity |]. simpl.
  intros [Hc Hd]%andb_true_iff. rewrite Hc. now rewrite IH.
Qed.

Lemma prefix_62_append (s : string) : String.prefix "62" ("62" +:+ s) = true.
Proof.
  unfold String.append. simpl.
  destruct (ascii_dec "6" "6"); [| congruence].
  destruct (ascii_dec "2" "2"); [| congruence].
  now destruct s.
Qed.

Lemma digits_countryCode (raw : string) :
  String.prefix "62" (PhoneNormalizer.digits raw) = true.
Proof.
  unfold PhoneNormalizer.digits, PhoneNormalizer.countryCode.
  destruct (String.prefix "62" (PhoneNormalizer.strip raw)) eqn:H62;
    [exact H62 |].
  destruct (PhoneNormalizer.strip raw) as [|c rest]; [reflexivity |].
  destruct (Ascii.eqb c PhoneNormalizer.trunkPrefix); apply prefix_62_append.
Qed.

(** The address of a string of digits that starts with 62 is that string
    and the suffix. *)
Lemma formatPhoneNumber_prefixed_digits (d : string) :
  allDigits d = true -> String.prefix "62" d = true ->
  formatPhoneNumber (d +:+ "@c.us") = d +:+ "@c.us"
  /\ formatPhoneNumber d = d +:+ "@c.us".
Proof.
  intros Hd H62. unfold formatPhoneNumber, JsString.startsWith.
  rewrite removeNonDigits_append, (removeNonDigits_allDigits d Hd).
  change (JsString.removeNonDigits "@c.us") with "".
  assert (Hnil : d +:+ "" = d).
  { clear. induction d as [|c d IH]; [reflexivity |].
    rewrite append_cons. now rewrite IH. }
  rewrite Hnil, H62. split; reflexivity.
Qed.

(** X1.  Formatting is idempotent: an address that [formatPhoneNumber] made
    is left as it is when it is formatted again. *)
Theorem formatPhoneNumber_idempotent (raw : string) :
  formatPhoneNumber (formatPhoneNumber raw) = formatPhoneNumber raw.
Proof.
  rewrite (formatPhoneNumber_digits raw).
  apply formatPhoneNumber_prefixed_digits;
    [apply digits_allDigits | apply digits_countryCode].
Qed.

Lemma formatPhoneNumber_starts_62_aux (raw : string) :
  exists rest, formatPhoneNumber raw = "62" +:+ rest.
Proof.
  rewrite (formatPhoneNumber_digits raw).
  pose proof (digits_countryCode raw) as H62.
  destruct (PhoneNormalizer.digits raw) as [|c1 [|c2 rest]]; try discriminate.
  - cbn [String.prefix] in H62. destruct (ascii_dec "6" c1); discriminate.
  - cbn [String.prefix] in H62.
    destruct (ascii_dec "6" c1) as [<-|]; [| discriminate].
    destruct (ascii_dec "2" c2) as [<-|]; [| discriminate].
    now exists (rest +:+ "@c.us").
Qed.

(** X2.  Every address starts with the country code: whatever the raw
    string, the result is 62, then digits only, then the suffix. *)
Theorem formatPhoneNumber_starts_62 (raw : string) :
  exists rest,
    formatPhoneNumber raw = "62" +:+ rest +:+ "@c.us"
    /\ allDigits rest = true.
Proof.
  rewrite (formatPhoneNumber_digits raw).
  pose proof (digits_countryCode raw) as H62.
  pose proof (digits_allDigits raw) as Hd.
  destruct (PhoneNormalizer.digits raw) as [|c1 [|c2 rest]]; try discriminate.
  - cbn [String.prefix] in H62. destruct (ascii_dec "6" c1); discriminate.
  - cbn [String.prefix] in H62.
    destruct (ascii_dec "6" c1) as [<-|]; [| discriminate].
    destruct (ascii_dec "2" c2) as [<-|]; [| discriminate].
    exists rest. split; [reflexivity |].
    simpl in Hd. exact Hd.
Qed.

(** X3.  What is not a digit does not count: a character that is not a
    digit, put anywhere into the raw string, leaves the address as it is. *)
Theorem formatPhoneNumber_separator (a b : string) (c : ascii) :
  JsString.isDigit c = false ->
  formatPhoneNumber (a +:+ String c b) = formatPhoneNumber (a +:+ b).
Proof.
  intros Hc.
  assert (Hskip : JsString.removeNonDigits (String c b)
                  = JsString.removeNonDigits b) by (simpl; now rewrite Hc).
  unfold formatPhoneNumber. now rewrite !removeNonDigits_append, Hskip.
Qed.

(** X4.  The spellings of one number meet: for digits [d], the national
    spelling with the trunk prefix and the international spelling with the
    country code give the address 62[d]; so does [d] alone when it starts
    with neither 62 nor 0. *)
Theorem formatPhoneNumber_spellings (d : string) :
  allDigits d = true ->
  formatPhoneNumber ("0" +:+ d) = "62" +:+ d +:+ "@c.us"
  /\ formatPhoneNumber ("62" +:+ d) = "62" +:+ d +:+ "@c.us"
  /\ (String.prefix "62" d = false -> String.prefix "0" d = false ->
      formatPhoneNumber d = "62" +:+ d +:+ "@c.us").
Proof.
  intros Hd. split; [| split].
  - unfold formatPhoneNumber, JsString.startsWith.
    rewrite removeNonDigits_allDigits by (rewrite allDigits_append; now rewrite Hd).
    change ("0" +:+ d) with (String "0" d).
    assert (H62 : String.prefix "62" (String "0" d) = false).
    { cbn [String.prefix]. destruct (ascii_dec "6" "0"); [discriminate |].
      reflexivity. }
    assert (H0 : String.prefix "0" (String "0" d) = true).
    { cbn [String.prefix]. destruct (ascii_dec "0" "0"); [| congruence].
      now destruct d. }
    rewrite H62, H0. reflexivity.
  - apply formatPhoneNumber_prefixed_digits;
      [rewrite allDigits_append; now rewrite Hd | apply prefix_62_append].
  - intros H62 H0. unfold formatPhoneNumber, JsString.startsWith.
    rewrite (removeNonDigits_allDigits d Hd), H62, H0. reflexivity.
Qed.

(** The spellings of 812 345 67. *)
Lemma formatPhoneNumber_spellings_812 :
  allDigits "81234567" = true
  /\ formatPhoneNumber "081234567" = "6281234567@c.us"
  /\ formatPhoneNumber "6281234567" = "6281234567@c.us"
  /\ formatPhoneNumber "81234567" = "6281234567@c.us".
Proof.
  split; [reflexivity |].
  destruct (formatPhoneNumber_spellings "81234567" eq_refl)
    as (Htrunk & Hcode & Hbare).
  split; [exact Htrunk |]. split; [exact Hcode |].
  apply Hbare; reflexivity.
Defined.

(** A separator in 0812-34567. *)
Lemma formatPhoneNumber_separator_dash :
  JsString.isDigit "-" = false
  /\ formatPhoneNumber "0812-34567" = formatPhoneNumber "081234567".
Proof.
  split; [reflexivity |].
  apply (formatPhoneNumber_separator "0812" "34567" "-"). reflexivity.
Defined.

(** ** sendMessage, call by call *)

Section SendMessageMore.

Context {T : Type} `{Session T}.

(** X8.  What one call asks of the session: nothing; or whether the
    contact's phone is registered; or that, and then one send to that
    phone.  It never sends without having asked, never asks or sends twice,
    and never starts the client. *)
Theorem sendMessage_requests (contact : Contact) (d : option string)
        (this : Sender T) :
  let requests := List.filter isTransport (sendMessage contact d this).2 in
  requests = []
  \/ requests = [EGetNumberId (phone contact)]
  \/ exists text,
      requests = [EGetNumberId (phone contact);
                  ESendMessage (phone contact) text].
Proof.
  cbv zeta. rewrite sendMessage_delivery. cbn [snd List.filter isTransport].
  delivery_cases; cbn [List.filter isTransport]; eauto.
Qed.


(** X10.  A contact's own message, when it is not empty, is the text: the
    default makes no difference to the outcome, to the client, or to what is
    asked of the session and written. *)
Theorem sendMessage_own_message (contact : Contact) (own : string)
        (d d' : option string) (this : Sender T) :
  message contact = Some own -> own <> "" ->
  (sendMessage contact d this).1 = (sendMessage contact d' this).1
  /\ List.filter (fun e => negb (isCall e)) (sendMessage contact d this).2
     = List.filter (fun e => negb (isCall e)) (sendMessage contact d' this).2.
Proof.
  intros Hown Hne%truthy_nonempty. rewrite !sendMessage_delivery.
  assert (Hsame : forall x, delivery contact x (client this)
                            = delivery contact "" (client this)).
  { intros x. unfold delivery, JsString.orString. now rewrite Hown, Hne. }
  rewrite (Hsame (default "" d)), (Hsame (default "" d')).
  split; reflexivity.
Qed.

(** X11.  A name without a dollar sign is put in as it is: whatever the call
    sends is the text with its first [{name}] replaced by the name, the rest
    of the text, later placeholders included, left alone. *)
Theorem sendMessage_plain_name (contact : Contact) (d : option string)
        (this : Sender T) (p body : string) :
  dollarFree (name contact) = true ->
  In (ESendMessage p body) (sendMessage contact d this).2 ->
  body = replaceFirst "{name}" (name contact)
           (JsString.orString (message contact) (default "" d)).
Proof.
  intros Hfree. rewrite sendMessage_delivery. cbn [snd].
  intros [Hin|Hin]; [discriminate |].
  apply delivery_sends in Hin as [_ ->]. now apply replace_dollarFree.
Qed.

(** X24.  A fault of the session that carries a value is caught: when the
    check or the send is rejected with anything but [undefined] or [null],
    the call returns [false], and the last thing it does, and the only
    thing it writes, is the failure line: with the message of the error, or
    with "undefined" for a value that has none. *)
Theorem sendMessage_catches (contact : Contact) (d : option string)
        (this : Sender T) (e : thrown) :
  faultsWith contact (default "" d) (client this) e ->
  e <> thrownNullish ->
  exists this' tr,
    sendMessage contact d this
    = (Returns false, this',
       tr ++ [EConsole
                (LogSendFailed (name contact) (phone contact)
                   match e with
                   | thrownError err => error_message err
                   | _ => "undefined"
                   end)])
    /\ List.filter isConsole tr = [].
Proof.
  rewrite sendMessage_delivery.
  intros [Ht [(c1 & Hg) | (id & c1 & c2 & Hg & Hs)]] Hvalue;
    unfold delivery; rewrite Ht, Hg; [| rewrite Hs];
    destruct e as [err| |]; try contradiction; cbn [caught fst snd].
  - now eexists _, [_; _].
  - now eexists _, [_; _].
  - now eexists _, [_; _; _].
  - now eexists _, [_; _; _].
Qed.

End SendMessageMore.

(** The send to Bob is rejected with an error. *)
Lemma sendMessage_catches_bob :
  faultsWith bob (default "" (Some "Hi {name}")) (client fakeSender)
    (mkError "Protocol error")
  /\ thrownError (mkError "Protocol error") <> thrownNullish
  /\ exists this' tr,
      sendMessage bob (Some "Hi {name}") fakeSender
      = (Returns false, this',
         tr ++ [EConsole
                  (LogSendFailed "Bob" "6289999999@c.us" "Protocol error")])
      /\ List.filter isConsole tr = [].
Proof.
  assert (Hfaults : faultsWith bob (default "" (Some "Hi {name}"))
                      (client fakeSender) (mkError "Protocol error")).
  { split; [reflexivity |]. right.
    exists "6289999999@c.us", (client fakeSender), (client fakeSender).
    split; reflexivity. }
  assert (Hvalue : thrownError (mkError "Protocol error") <> thrownNullish)
    by discriminate.
  split; [exact Hfaults |]. split; [exact Hvalue |].
  apply (sendMessage_catches bob (Some "Hi {name}") fakeSender
           (mkError "Protocol error") Hfaults Hvalue).
Defined.

(** Bob has a message of his own. *)
Lemma sendMessage_own_message_bob :
  message bob = Some "Yo {name}" /\ "Yo {name}" <> ""
  /\ (sendMessage bob (Some "Hi {name}") fakeSender).1
     = (sendMessage bob None fakeSender).1
  /\ List.filter (fun e => negb (isCall e))
       (sendMessage bob (Some "Hi {name}") fakeSender).2
     = List.filter (fun e => negb (isCall e)) (sendMessage bob None fakeSender).2.
Proof.
  assert (Hne : "Yo {name}" <> "") by discriminate.
  split; [reflexivity |]. split; [exact Hne |].
  apply (sendMessage_own_message bob "Yo {name}" (Some "Hi {name}") None
           fakeSender eq_refl Hne).
Defined.

(** Ann's name has no dollar sign; the second placeholder stays. *)
Lemma sendMessage_plain_name_ann :
  dollarFree (name ann) = true
  /\ In (ESendMessage "6281234567@c.us" "Hi Ann, dear {name}")
        (sendMessage ann (Some "Hi {name}, dear {name}") fakeSender).2
  /\ "Hi Ann, dear {name}"
     = replaceFirst "{name}" (name ann)
         (JsString.orString (message ann)
            (default "" (Some "Hi {name}, dear {name}"))).
Proof.
  assert (Hin : In (ESendMessage "6281234567@c.us" "Hi Ann, dear {name}")
                   (sendMessage ann (Some "Hi {name}, dear {name}")
                      fakeSender).2).
  { right. right. left. reflexivity. }
  split; [reflexivity |]. split; [exact Hin |].
  apply (sendMessage_plain_name ann (Some "Hi {name}, dear {name}") fakeSender
           "6281234567@c.us" "Hi Ann, dear {name}" eq_refl Hin).
Defined.

(** ** readContactsFromCSV, row by row *)

Lemma onData_shape (row : Row) :
  onData [] row = []
  \/ exists c, onData [] row = [c]
               /\ name c <> "" /\ message c <> Some ""
               /\ String.prefix "62" (phone c) = true.
Proof.
  unfold onData. destruct (row !! "phone") as [p|]; [| now left].
  destruct (JsString.truthy p); [| now left]. right. eexists.
  split; [reflexivity |]. cbn [name message phone]. split; [| split].
  - unfold JsString.orString. destruct (row !! "name") as [n|]; [| discriminate].
    destruct n; [discriminate |]. cbn. discriminate.
  - unfold JsString.orNull. destruct (row !! "message") as [m|]; [| discriminate].
    destruct m; cbn; discriminate.
  - destruct (formatPhoneNumber_starts_62_aux p) as [rest ->].
    apply prefix_62_append.
Qed.

(** X5.  What is read from a file is fit for delivery: every contact has a
    name that is not empty, a phone that starts with 62, and a message that is
    [null] or not empty; so for such a contact [contact.message ||
    defaultMessage] and [contact.message ?? defaultMessage] are the same
    text. *)
Theorem readContactsFromCSV_contacts {T : Type} `{Session T}
        (rows : list Row) (this : Sender T) :
  exists cs,
    (readContactsFromCSV (FileRows rows) this).1.1 = Returns cs
    /\ Forall (fun c =>
                 name c <> "" /\ message c <> Some ""
                 /\ String.prefix "62" (phone c) = true
                 /\ forall d, JsString.orString (message c) d
                              = nullish (message c) d) cs.
Proof.
  exists (foldl onData [] rows). split; [reflexivity |].
  induction rows as [|row rows IH]; [constructor |].
  simpl. rewrite foldl_onData.
  destruct (onData_shape row) as [-> | (c & -> & Hname & Hmessage & Hphone)];
    [exact IH |].
  constructor; [| exact IH]. repeat split; try assumption.
  intros d. destruct (message c) as [[|x m]|]; try reflexivity. congruence.
Qed.

(** X6.  The file is read row by row: the contacts of two runs of rows are
    those of the first run followed by those of the second, and there are
    never more contacts than rows. *)
Theorem onData_rows (rows rows' : list Row) :
  foldl onData [] (rows ++ rows')
  = foldl onData [] rows ++ foldl onData [] rows'
  /\ (length (foldl onData [] rows) <= length rows)%nat.
Proof.
  split.
  - rewrite foldl_app. apply foldl_onData.
  - induction rows as [|row rows IH]; [reflexivity |].
    simpl. rewrite foldl_onData, length_app.
    destruct (onData_shape row) as [-> | (c & -> & _)]; simpl; lia.
Qed.

(** X7.  Columns other than [name], [phone] and [message] are ignored: a
    cell under any other header changes nothing of what the row gives. *)
Theorem onData_other_column (contacts : list Contact) (row : Row)
        (header cell : string) :
  header <> "name" -> header <> "phone" -> header <> "message" ->
  onData contacts (<[header := cell]> row) = onData contacts row.
Proof.
  intros Hname Hphone Hmessage. unfold onData.
  now rewrite !lookup_insert_ne by assumption.
Qed.

(** A row with a city. *)
Lemma onData_other_column_city :
  "city" <> "name" /\ "city" <> "phone" /\ "city" <> "message"
  /\ onData [] (<[ "city" := "Bandung" ]> {[ "phone" := "0812-345-67" ]})
     = onData [] {[ "phone" := "0812-345-67" ]}.
Proof.
  assert (Hname : "city" <> "name") by discriminate.
  assert (Hphone : "city" <> "phone") by discriminate.
  assert (Hmessage : "city" <> "message") by discriminate.
  split; [exact Hname |]. split; [exact Hphone |]. split; [exact Hmessage |].
  apply (onData_other_column [] {[ "phone" := "0812-345-67" ]}
           "city" "Bandung" Hname Hphone Hmessage).
Defined.

(** ** sendBulkMessages, as a whole *)

Section SendBulkMessagesMore.

Context {T : Type} `{Session T}.

(** A delivery writes that the message was sent once when it succeeds, and
    not at all when it does not; it writes no progress line. *)
Lemma delivery_lines (contact : Contact) (d : string) (c : T) :
  length (List.filter isSent (delivery contact d c).2)
  = match (delivery contact d c).1.1 with
    | Returns true => 1%nat
    | _ => 0%nat
    end
  /\ List.filter isProcessing (delivery contact d c).2 = [].
Proof. delivery_cases; split; reflexivity. Qed.

(** The lines of the loop, on a session whose rejections are values: a
    progress line for each contact from [i] on, numbered from [i + 1], and
    as many lines about a message sent as successes are counted. *)
Lemma sendLoop_lines (d : string) (delay : Z) (n : nat) :
  rejectsWithValue T ->
  forall (i fuel sc fc : nat) (this : Sender T),
    (length (contacts this) - i = n)%nat ->
    (n <= fuel)%nat ->
    exists sc' fc' this' tr,
      sendLoop fuel d delay i sc fc this = (Returns (sc', fc'), this', tr)
      /\ (sc' = sc + length (List.filter isSent tr))%nat
      /\ List.filter isProcessing tr
         = progress i (length (contacts this)) (drop i (contacts this)).
Proof.
  intros Hvalue.
  induction n as [|n IH]; intros i fuel sc fc this Hn Hfuel.
  - exists sc, fc, this, []. rewrite sendLoop_done by lia.
    rewrite drop_ge by lia. repeat split. simpl. lia.
  - destruct fuel as [|fuel]; [lia |].
    destruct (lookup_lt_is_Some_2 (contacts this) i) as [contact Hc]; [lia |].
    rewrite (sendLoop_turn _ _ _ _ _ _ _ _ Hc). cbv zeta.
    destruct (delivery_lines contact d (client this)) as [Hsent Hquiet].
    destruct (delivery_returns contact d (client this) Hvalue) as [b Hb].
    rewrite Hb in Hsent |- *.
    set (out := delivery contact d (client this)) in *.
    destruct (IH (i + 1)%nat fuel (if b then S sc else sc)
                (if b then fc else S fc) (setClient this out.1.2))
      as (sc' & fc' & this' & tr & Hrun & Hcount & Htr);
      [rewrite contacts_setClient; lia | lia |].
    rewrite Hrun. cbn [fst snd]. rewrite contacts_setClient in Htr.
    eexists sc', fc', this', _. split; [reflexivity |]. split.
    + cbn [List.filter isSent]. rewrite !List.filter_app, !length_app, Hsent.
      rewrite Hcount.
      assert (Hwait : length (List.filter isSent
                (if Z.of_nat i <? Z.of_nat (length (contacts this)) - 1
                 then [EConsole (LogWaiting delay); ESleep (timerDelay delay)]
                 else []))
              = 0%nat) by now destruct (_ <? _).
      rewrite Hwait. destruct b; lia.
    + rewrite (drop_S _ _ _ Hc). cbn [List.filter isProcessing progress].
      rewrite !List.filter_app, Hquiet, Htr. cbn [app].
      rewrite Nat.add_1_r. now destruct (_ <? _).
Qed.

(** [sendBulkMessages] when the file is missing or does not parse, once the
    client has started. *)
Lemma sendBulkMessages_unread (file : CsvFile) (err : JsError)
      (d : option string) (delay : option Z) (this : Sender T) (u : unit)
      (c1 : T) (this1 : Sender T) (tr1 : list event) :
  fileFault file = Some err ->
  clientInitialize (client this) = (Fulfilled u, c1) ->
  awaitReady (setClient this c1) = (Returns tt, this1, tr1) ->
  sendBulkMessages file d delay this
  = (Returns tt, this1, [EInitialize; EConsole (LogBulkError err)]).
Proof.
  intros Hfault Hinit Hready.
  assert (Htr1 : tr1 = []).
  { unfold awaitReady in Hready. destruct (clientInfo _); [congruence |].
    destruct (clientReady _); congruence. }
  subst tr1. unfold sendBulkMessages, request, consoleLog.
  unfold tryCatch. unfold bind at 1. unfold bind at 1. unfold emit at 1.
  unfold settle. rewrite Hinit. unfold bind at 1. rewrite Hready.
  unfold bind at 1.
  destruct file as [path | rows | rows error | rows error];
    try discriminate; injection Hfault as <-; reflexivity.
Qed.

(** [sendBulkMessages] when the stream that reads the file fails, once the
    client has started: nothing catches the error, and the promise of
    [readContactsFromCSV] stays pending. *)
Lemma sendBulkMessages_unreadable (rows : list Row) (error : JsError)
      (d : option string) (delay : option Z) (this : Sender T) (u : unit)
      (c1 : T) (this1 : Sender T) (tr1 : list event) :
  clientInitialize (client this) = (Fulfilled u, c1) ->
  awaitReady (setClient this c1) = (Returns tt, this1, tr1) ->
  sendBulkMessages (FileUnreadable rows error) d delay this
  = (Hangs, this1, [EInitialize; EUncaught error]).
Proof.
  intros Hinit Hready.
  assert (Htr1 : tr1 = []).
  { unfold awaitReady in Hready. destruct (clientInfo _); [congruence |].
    destruct (clientReady _); congruence. }
  subst tr1. unfold sendBulkMessages, request, consoleLog.
  unfold tryCatch. unfold bind at 1. unfold bind at 1. unfold emit at 1.
  unfold settle. rewrite Hinit. unfold bind at 1. rewrite Hready.
  reflexivity.
Qed.

(** The loop of a started run settles, and so does the run. *)
Lemma sendBulkMessages_rows_return (rows : list Row) (d : option string)
      (delay : option Z) (this : Sender T) (u : unit) (c1 : T)
      (this1 : Sender T) (tr1 : list event) :
  clientInitialize (client this) = (Fulfilled u, c1) ->
  awaitReady (setClient this c1) = (Returns tt, this1, tr1) ->
  exists this' tr,
    sendBulkMessages (FileRows rows) d delay this = (Returns tt, this', tr).
Proof.
  intros Hinit Hready.
  rewrite (sendBulkMessages_started _ _ _ _ _ _ _ _ Hinit Hready).
  cbv zeta. destruct (_ =? _)%nat; [eauto |].
  set (cs := foldl onData [] rows).
  destruct (sendLoop_settles (default "" d) (default 2000 delay)
              (length cs) 0 (length cs) 0 0 (setContacts this1 cs))
    as [Hsettles _]; [cbn; lia | lia |].
  destruct (sendLoop _ _ _ 0 0 0 _) as [[[counts|e|] this'] tr];
    cbn [fst snd] in *; [eauto | eauto | now destruct Hsettles].
Qed.

Lemma sendBulkMessages_never_throws_aux (file : CsvFile) (d : option string)
      (delay : option Z) (this : Sender T) :
  (exists this' tr,
      sendBulkMessages file d delay this = (Returns tt, this', tr))
  \/ (exists this' tr,
       sendBulkMessages file d delay this = (Hangs, this', tr)).
Proof.
  destruct (clientInitialize (client this)) as [[u|e] c1] eqn:Hinit.
  - destruct (awaitReady_cases (setClient this c1))
      as [(this1 & Hready & _) | Hready].
    + destruct (fileFault file) as [err|] eqn:Hfault.
      * left.
        rewrite (sendBulkMessages_unread _ _ _ _ _ _ _ _ _ Hfault Hinit Hready).
        eauto.
      * destruct file as [path | rows | rows error | rows error];
          try discriminate.
        -- left. now apply sendBulkMessages_rows_return with u c1 this1 [].
        -- right.
           rewrite (sendBulkMessages_unreadable _ _ _ _ _ _ _ _ _ Hinit Hready).
           eauto.
    + right. rewrite (sendBulkMessages_never_ready _ _ _ _ _ _ Hinit Hready).
      eauto.
  - left. rewrite (sendBulkMessages_rejected _ _ _ _ _ _ Hinit). eauto.
Qed.


(** X13.  When the client does not start, nothing else is done: whatever the
    file holds, it is not read and no contact is tried; the error goes to the
    console and the function returns as if all were well. *)
Theorem sendBulkMessages_start_fault (e : thrown) (c1 : T)
        (this : Sender T) :
  clientInitialize (client this) = (Rejected e, c1) ->
  forall file d delay,
    sendBulkMessages file d delay this
    = (Returns tt, setClient this c1,
       [EInitialize; EConsole (LogBulkError e)])
    /\ contacts (sendBulkMessages file d delay this).1.2 = contacts this.
Proof.
  intros Hinit file d delay.
  rewrite (sendBulkMessages_rejected _ _ _ _ _ _ Hinit). now split.
Qed.

(** X14.  A file that is missing, or that the parser gives up on, stops the
    run after the client has started: the rows read before are dropped, no
    contact is tried, [this.contacts] stays as it was, the error goes to the
    console and the function returns.  When it is the stream reading the
    file that fails, the error reaches no listener: it is thrown uncaught,
    nothing is written, no contact is tried, and the function does not
    return. *)
Theorem sendBulkMessages_file_fault (file : CsvFile)
        (d : option string) (delay : option Z) (this : Sender T) (u : unit)
        (c1 : T) (this1 : Sender T) (tr1 : list event) :
  clientInitialize (client this) = (Fulfilled u, c1) ->
  awaitReady (setClient this c1) = (Returns tt, this1, tr1) ->
  contacts this1 = contacts this
  /\ (forall err,
        fileFault file = Some err ->
        sendBulkMessages file d delay this
        = (Returns tt, this1, [EInitialize; EConsole (LogBulkError err)]))
  /\ (forall rows error,
        file = FileUnreadable rows error ->
        sendBulkMessages file d delay this
        = (Hangs, this1, [EInitialize; EUncaught error])).
Proof.
  intros Hinit Hready. split; [| split].
  - destruct (awaitReady_cases (setClient this c1))
      as [(this1' & Hready' & Hcs) | Hready']; rewrite Hready' in Hready;
      [| discriminate].
    injection Hready as <- _. exact Hcs.
  - intros err Hfault. now apply sendBulkMessages_unread with u c1 tr1.
  - intros rows error ->. now apply sendBulkMessages_unreadable with u c1 tr1.
Qed.

(** X15.  A run over a file with N >= 1 contacts, once the client has
    started, on a session that never rejects a check or a send with
    [undefined] or [null]: the function returns with the contacts of the
    file in [this.contacts]; between its calls of the delivery primitive it
    sets a timer, which runs for the delay given (for 2000 when none is
    given) if that is between 1 and 2^31 - 1, and for one millisecond if it
    is not; and it writes one summary, with N as the total, as many
    successes as there are lines about a message sent, and the rest as
    failures. *)
Theorem sendBulkMessages_summary (rows : list Row) (d : option string)
        (delay : option Z) (this : Sender T) (u : unit) (c1 : T)
        (this1 : Sender T) (tr1 : list event) :
  rejectsWithValue T ->
  clientInitialize (client this) = (Fulfilled u, c1) ->
  awaitReady (setClient this c1) = (Returns tt, this1, tr1) ->
  (1 <= length (foldl onData [] rows))%nat ->
  exists this' tr sc fc,
    sendBulkMessages (FileRows rows) d delay this = (Returns tt, this', tr)
    /\ contacts this' = foldl onData [] rows
    /\ List.filter isCallOrSleep tr
       = paced (default "" d) (timerDelay (default 2000 delay))
           (foldl onData [] rows)
    /\ (1 <= default 2000 delay <= 2147483647 ->
        timerDelay (default 2000 delay) = default 2000 delay)
    /\ (default 2000 delay < 1 \/ 2147483647 < default 2000 delay ->
        timerDelay (default 2000 delay) = 1)
    /\ List.filter isSummary tr
       = [EConsole (LogSummary (length (foldl onData [] rows)) sc fc)]
    /\ sc = length (List.filter isSent tr)
    /\ (sc + fc = length (foldl onData [] rows))%nat.
Proof.
  intros Hvalue Hinit Hready Hlen.
  destruct (sendBulkMessages_paced rows d delay this u c1 this1 tr1
              Hvalue Hinit Hready Hlen)
    as (this' & tr & sc & fc & Hrun & Hpaced & Hsummary & Hcount).
  exists this', tr, sc, fc. split; [exact Hrun |].
  rewrite (sendBulkMessages_started _ _ _ _ _ _ _ _ Hinit Hready) in Hrun.
  cbv zeta in Hrun.
  destruct (Nat.eqb_spec (length (foldl onData [] rows)) 0) as [|_]; [lia |].
  set (cs := foldl onData [] rows) in *.
  destruct (sendLoop_paced (default "" d) (default 2000 delay) (length cs)
              Hvalue 0 (length cs) 0 0 (setContacts this1 cs))
    as (sc1 & fc1 & this2 & tr2 & Hloop & Hcs & _); [cbn; lia | lia |].
  destruct (sendLoop_lines (default "" d) (default 2000 delay) (length cs)
              Hvalue 0 (length cs) 0 0 (setContacts this1 cs))
    as (sc2 & fc2 & this3 & tr3 & Hloop' & Hsent & _); [cbn; lia | lia |].
  rewrite Hloop in Hloop'. injection Hloop' as <- <- <- <-.
  rewrite Hloop in Hrun. cbn [fst snd] in Hrun.
  injection Hrun as <- <-. cbn [contacts setContacts] in Hcs.
  split; [exact Hcs |]. split; [exact Hpaced |].
  split; [apply timerDelay_range |]. split; [apply timerDelay_range |].
  split; [exact Hsummary |].
  split; [| exact Hcount].
  rewrite Hcs in Hsummary. cbn [List.filter isSummary app] in Hsummary.
  rewrite !List.filter_app in Hsummary.
  cbn [List.filter isSent app]. rewrite !List.filter_app, !length_app.
  cbn [List.filter isSent isSummary length] in *.
  destruct (sendLoop_paced (default "" d) (default 2000 delay) (length cs)
              Hvalue 0 (length cs) 0 0 (setContacts this1 cs))
    as (sc3 & fc3 & this4 & tr4 & Hloop3 & _ & _ & Hnosum & _);
    [cbn; lia | lia |].
  rewrite Hloop in Hloop3. injection Hloop3 as <- <- <- <-.
  rewrite Hnosum in Hsummary. cbn [app] in Hsummary.
  injection Hsummary as -> ->. rewrite Hsent. simpl. lia.
Qed.

(** X16.  The progress lines of such a run, on a session that never rejects
    a check or a send with [undefined] or [null], count the contacts from 1
    to N, in the order of the file, each with the contact's name. *)
Theorem sendBulkMessages_progress (rows : list Row) (d : option string)
        (delay : option Z) (this : Sender T) (u : unit) (c1 : T)
        (this1 : Sender T) (tr1 : list event) :
  rejectsWithValue T ->
  clientInitialize (client this) = (Fulfilled u, c1) ->
  awaitReady (setClient this c1) = (Returns tt, this1, tr1) ->
  (1 <= length (foldl onData [] rows))%nat ->
  List.filter isProcessing (sendBulkMessages (FileRows rows) d delay this).2
  = progress 0 (length (foldl onData [] rows)) (foldl onData [] rows).
Proof.
  intros Hvalue Hinit Hready Hlen.
  rewrite (sendBulkMessages_started _ _ _ _ _ _ _ _ Hinit Hready). cbv zeta.
  destruct (Nat.eqb_spec (length (foldl onData [] rows)) 0) as [|_]; [lia |].
  set (cs := foldl onData [] rows) in *.
  destruct (sendLoop_lines (default "" d) (default 2000 delay) (length cs)
              Hvalue 0 (length cs) 0 0 (setContacts this1 cs))
    as (sc & fc & this' & tr & Hloop & _ & Hprogress); [cbn; lia | lia |].
  rewrite Hloop. cbn [fst snd contacts setContacts] in *.
  rewrite drop_0 in Hprogress.
  cbn [app List.filter isProcessing]. rewrite !List.filter_app, Hprogress.
  cbn. now rewrite app_nil_r.
Qed.





End SendBulkMessagesMore.



(** The client cannot be launched; the file would have had a contact. *)
Lemma sendBulkMessages_start_fault_dead :
  clientInitialize (client (mkSender Dead [])) = (Rejected launchError, Dead)
  /\ sendBulkMessages (FileRows threeRows) (Some "Hi {name}") None
       (mkSender Dead [])
     = (Returns tt, mkSender Dead [],
        [EInitialize; EConsole (LogBulkError launchError)])
  /\ contacts (sendBulkMessages (FileRows threeRows) (Some "Hi {name}") None
                 (mkSender Dead [])).1.2 = [].
Proof.
  assert (Hinit : clientInitialize (client (mkSender Dead []))
                  = (Rejected launchError, Dead)) by reflexivity.
  split; [exact Hinit |].
  apply (sendBulkMessages_start_fault launchError Dead (mkSender Dead [])
           Hinit (FileRows threeRows) (Some "Hi {name}") None).
Defined.

(** There is no file; and there is one that cannot be read to the end. *)
Lemma sendBulkMessages_file_fault_missing :
  fileFault (FileMissing "contacts.csv")
  = Some (mkError "CSV file not found: contacts.csv")
  /\ clientInitialize (client fakeSender) = (Fulfilled tt, fakeStarted)
  /\ awaitReady (setClient fakeSender fakeStarted) = (Returns tt, fakeReady, [])
  /\ contacts fakeReady = contacts fakeSender
  /\ sendBulkMessages (FileMissing "contacts.csv") None None fakeSender
     = (Returns tt, fakeReady,
        [EInitialize;
         EConsole (LogBulkError (mkError "CSV file not found: contacts.csv"))])
  /\ sendBulkMessages (FileUnreadable threeRows (mkError "EIO: i/o error, read"))
       None None fakeSender
     = (Hangs, fakeReady,
        [EInitialize; EUncaught (mkError "EIO: i/o error, read")]).
Proof.
  assert (Hfault : fileFault (FileMissing "contacts.csv")
                   = Some (mkError "CSV file not found: contacts.csv"))
    by reflexivity.
  assert (Hinit : clientInitialize (client fakeSender)
                  = (Fulfilled tt, fakeStarted)) by reflexivity.
  assert (Hready : awaitReady (setClient fakeSender fakeStarted)
                   = (Returns tt, fakeReady, [])) by reflexivity.
  split; [exact Hfault |]. split; [exact Hinit |]. split; [exact Hready |].
  destruct (sendBulkMessages_file_fault (FileMissing "contacts.csv")
              None None fakeSender tt fakeStarted fakeReady [] Hinit Hready)
    as (Hkept & Hmissing & _).
  destruct (sendBulkMessages_file_fault
              (FileUnreadable threeRows (mkError "EIO: i/o error, read"))
              None None fakeSender tt fakeStarted fakeReady [] Hinit Hready)
    as (_ & _ & Hunreadable).
  split; [exact Hkept |]. split; [exact (Hmissing _ Hfault) |].
  exact (Hunreadable _ _ eq_refl).
Defined.

Lemma threeRows_contacts :
  foldl onData [] threeRows
  = [mkContact "Ann" "6281234567@c.us" None;
     mkContact "Unknown" "6289999999@c.us" (Some "Yo")].
Proof. reflexivity. Qed.

(** Three rows, two contacts, one message sent. *)
Lemma sendBulkMessages_summary_three_rows :
  rejectsWithValue FakeClient
  /\ clientInitialize (client fakeSender) = (Fulfilled tt, fakeStarted)
  /\ awaitReady (setClient fakeSender fakeStarted) = (Returns tt, fakeReady, [])
  /\ (1 <= length (foldl onData [] threeRows))%nat
  /\ exists this' tr sc fc,
      sendBulkMessages (FileRows threeRows) (Some "Hi {name}") None fakeSender
      = (Returns tt, this', tr)
      /\ contacts this' = foldl onData [] threeRows
      /\ List.filter isCallOrSleep tr
         = paced (default "" (Some "Hi {name}"))
             (timerDelay (default 2000 None)) (foldl onData [] threeRows)
      /\ timerDelay (default 2000 None) = 2000
      /\ List.filter isSummary tr
         = [EConsole (LogSummary (length (foldl onData [] threeRows)) sc fc)]
      /\ sc = length (List.filter isSent tr)
      /\ (sc + fc = length (foldl onData [] threeRows))%nat.
Proof.
  assert (Hlen : (1 <= length (foldl onData [] threeRows))%nat)
    by (rewrite threeRows_contacts; simpl; lia).
  assert (Hinit : clientInitialize (client fakeSender)
                  = (Fulfilled tt, fakeStarted)) by reflexivity.
  assert (Hready : awaitReady (setClient fakeSender fakeStarted)
                   = (Returns tt, fakeReady, [])) by reflexivity.
  assert (Hrange : 1 <= default 2000 None <= 2147483647) by (cbn; lia).
  split; [exact fakeSession_rejectsWithValue |].
  split; [exact Hinit |]. split; [exact Hready |]. split; [exact Hlen |].
  destruct (sendBulkMessages_summary threeRows (Some "Hi {name}") None
              fakeSender tt fakeStarted fakeReady []
              fakeSession_rejectsWithValue Hinit Hready Hlen)
    as (this' & tr & sc & fc & Hrun & Hcs & Hpaced & Hin & _ & Hsummary
        & Hsent & Hcount).
  exists this', tr, sc, fc.
  split; [exact Hrun |]. split; [exact Hcs |]. split; [exact Hpaced |].
  split; [exact (Hin Hrange) |]. split; [exact Hsummary |].
  split; [exact Hsent | exact Hcount].
Defined.

Example sendBulkMessages_three_rows_summary :
  List.filter isSummary
    (sendBulkMessages (FileRows threeRows) (Some "Hi {name}") None
       fakeSender).2
  = [EConsole (LogSummary 2 1 1)].
Proof. reflexivity. Qed.

(** Three rows, two progress lines. *)
Lemma sendBulkMessages_progress_three_rows :
  rejectsWithValue FakeClient
  /\ clientInitialize (client fakeSender) = (Fulfilled tt, fakeStarted)
  /\ awaitReady (setClient fakeSender fakeStarted) = (Returns tt, fakeReady, [])
  /\ (1 <= length (foldl onData [] threeRows))%nat
  /\ List.filter isProcessing
       (sendBulkMessages (FileRows threeRows) (Some "Hi {name}") None
          fakeSender).2
     = progress 0 (length (foldl onData [] threeRows))
         (foldl onData [] threeRows).
Proof.
  assert (Hlen : (1 <= length (foldl onData [] threeRows))%nat)
    by (rewrite threeRows_contacts; simpl; lia).
  assert (Hinit : clientInitialize (client fakeSender)
                  = (Fulfilled tt, fakeStarted)) by reflexivity.
  assert (Hready : awaitReady (setClient fakeSender fakeStarted)
                   = (Returns tt, fakeReady, [])) by reflexivity.
  split; [exact fakeSession_rejectsWithValue |].
  split; [exact Hinit |]. split; [exact Hready |]. split; [exact Hlen |].
  apply (sendBulkMessages_progress threeRows (Some "Hi {name}") None fakeSender
           tt fakeStarted fakeReady [] fakeSession_rejectsWithValue
           Hinit Hready Hlen).
Defined.

(** On the session that rejects with nothing the run is over with the first
    contact: the call for it throws, the [catch] of line 179 writes the
    TypeError, and there is no summary. *)
Example sendBulkMessages_void :
  sendBulkMessages (FileRows threeRows) (Some "Hi {name}") None
    (mkSender Void [])
  = (Returns tt, mkSender Void (foldl onData [] threeRows),
     [EInitialize; EConsole (LogLoaded 2); EConsole (LogStarting 2);
      EConsole (LogDelay 2000); EConsole (LogProcessing 1 2 "Ann");
      ECall (mkContact "Ann" "6281234567@c.us" None) "Hi {name}";
      EGetNumberId "6281234567@c.us";
      EConsole (LogBulkError typeError)]).
Proof. reflexivity. Qed.

(** ** main *)

Section MainProperties.

Context {T : Type} `{Session T}.

(** X17.  [main] installs its interrupt handler when the run is over and not
    before: the handler is registered as the last thing, after everything
    the sender did, and it is never registered when the client does not get
    ready.  [main] itself never throws, and its own error branch is never
    taken. *)
Theorem main_sigint_last (file : CsvFile) :
  (forall err, ~ In (MAppError err) (main file).2)
  /\ ((exists this' tr,
         sendBulkMessages file (Some mainDefaultMessage) (Some 3000)
           (mkSender newClient []) = (Returns tt, this', tr)
         /\ main file = (Returns tt, this', map MSender tr ++ [MOnSigint]))
      \/ (exists this' tr,
            sendBulkMessages file (Some mainDefaultMessage) (Some 3000)
              (mkSender newClient []) = (Hangs, this', tr)
            /\ main file = (Hangs, this', map MSender tr)
            /\ ~ In MOnSigint (main file).2)).
Proof.
  assert (Hquiet : forall (tr : list event) (m : mevent),
             In m (map MSender tr) -> exists e, m = MSender e).
  { intros tr m (e & <- & _)%in_map_iff. now exists e. }
  unfold main, tryFinally, tryCatch, ofSender, emit.
  destruct (sendBulkMessages_never_throws_aux file (Some mainDefaultMessage)
              (Some 3000) (mkSender newClient []))
    as [(this' & tr & Hrun) | (this' & tr & Hrun)]; rewrite Hrun; cbn [snd].
  - split.
    + intros err [(e & He)%Hquiet | [He|[]]]%in_app_iff; discriminate.
    + left. now exists this', tr.
  - split.
    + intros err (e & He)%Hquiet. discriminate.
    + right. exists this', tr. repeat split.
      intros (e & He)%Hquiet. discriminate.
Qed.

End MainProperties.

Example main_never_ready :
  main (FileRows threeRows)
  = (Hangs, mkSender Silent [], [MSender EInitialize]).
Proof. reflexivity. Qed.

Example main_missing_file :
  main (FileMissing "contacts.csv")
  = (Returns tt, fakeReady,
     [MSender EInitialize;
      MSender (EConsole
                 (LogBulkError (mkError "CSV file not found: contacts.csv")));
      MOnSigint]).
Proof. reflexivity. Qed.

(** ** The gateway, request after request *)

Section GatewayMore.

Context {T : Type} `{Session T}.

(** A quiet piece keeps the variable bound. *)
Lemma quiet_bound (srv srv' : Server T) (tr : list gevent) :
  quiet srv srv' tr -> bound srv -> bound srv'.
Proof.
  intros (Hs & Hl & _) Hbound ref Href. rewrite Hs in Href.
  apply lookup_lt_is_Some. rewrite Hl. apply lookup_lt_is_Some.
  now apply Hbound.
Qed.

(** After a call of [initWhatsAppClient], however it ended, the variable is
    set and bound. *)
Lemma initWhatsAppClient_sets (srv : Server T) :
  bound srv ->
  exists ref,
    senderInstance (initWhatsAppClient srv).1.2 = Some ref
    /\ bound (initWhatsAppClient srv).1.2
    /\ (length (heap (initWhatsAppClient srv).1.2)
        <= S (length (heap srv)))%nat
    /\ (senderInstance srv = Some ref ->
        initWhatsAppClient srv = (Returns tt, srv, [])).
Proof.
  intros Hbound. destruct (senderInstance srv) as [ref|] eqn:Href.
  - rewrite (initWhatsAppClient_again _ _ Href). exists ref. cbn [fst snd].
    repeat split; auto.
  - rewrite (initWhatsAppClient_first _ Href). cbv zeta.
    exists (length (heap srv)).
    destruct (clientInitialize newClient) as [[u|e] c1];
      cbn [fst snd senderInstance heap]; rewrite length_app; cbn [length].
    + repeat split; try lia; try discriminate.
      intros ref [= <-]. cbn [heap]. rewrite lookup_snoc. eauto.
    + repeat split; try lia; try discriminate.
      intros ref [= <-]. cbn [heap]. rewrite lookup_snoc. eauto.
Qed.

(** X18.  [initWhatsAppClient] tries once.  After a first call, whether it
    returned, threw because the client did not start, or is still waiting,
    [senderInstance] is set; a call made after that returns at once and does
    nothing, so a client that failed to start is never started again. *)
Theorem initWhatsAppClient_once (srv : Server T) :
  bound srv ->
  let after := (initWhatsAppClient srv).1.2 in
  senderInstance after <> None
  /\ bound after
  /\ initWhatsAppClient after = (Returns tt, after, []).
Proof.
  intros Hbound after.
  destruct (initWhatsAppClient_sets srv Hbound) as (ref & Href & Hb & _).
  fold after in Href, Hb. split; [congruence |]. split; [exact Hb |].
  now apply initWhatsAppClient_again with ref.
Qed.




(** A delivery succeeds exactly when it writes that the message was sent. *)
Lemma delivery_sent_iff (contact : Contact) (d : string) (c : T) :
  (delivery contact d c).1.1 = Returns true
  <-> exists n p, In (EConsole (LogSent n p)) (delivery contact d c).2.
Proof.
  delivery_cases; split; try discriminate; try reflexivity;
    try (intros _; eexists _, _; right; right; left; reflexivity);
    intros (n & p & Hin);
    repeat (destruct Hin as [Hin|Hin]; [discriminate |]); destruct Hin.
Qed.

(** X21.  The answer tells the truth about the send: the handler answers
    with status 200 exactly when the client has fulfilled the send and the
    line about the message sent was written; with any other status no such
    line was written. *)
Theorem postSendMessage_success (body : Body) (srv srv' : Server T)
        (resp : Response) (tr : list gevent) :
  bound srv ->
  postSendMessage body srv = (Returns resp, srv', tr) ->
  (statusCode resp = 200
   <-> exists ref n p, In (GOn ref (EConsole (LogSent n p))) tr).
Proof.
  intros Hbound.
  assert (Hbad : (Returns badRequest, srv, [])
                 = (Returns resp, srv', tr) ->
                 statusCode resp = 200
                 <-> exists ref n p, In (GOn ref (EConsole (LogSent n p))) tr).
  { intros [= <- <- <-]. split; [discriminate | intros (? & ? & ? & [])]. }
  destruct (body_phone body) as [phone|] eqn:Hphone;
    [| unfold postSendMessage; rewrite Hphone; exact Hbad].
  destruct (body_message body) as [message|] eqn:Hmessage;
    [| unfold postSendMessage; rewrite Hphone, Hmessage; exact Hbad].
  destruct (JsString.truthy phone) eqn:Hp;
    [| unfold postSendMessage; rewrite Hphone, Hmessage, Hp; exact Hbad].
  destruct (JsString.truthy message) eqn:Hm;
    [| unfold postSendMessage; rewrite Hphone, Hmessage, Hp, Hm; exact Hbad].
  rewrite (postSendMessage_valid _ _ _ _ Hphone Hp Hmessage Hm). cbv zeta.
  pose proof (initWhatsAppClient_trace srv) as Htrace.
  destruct (initWhatsAppClient srv) as [[[[]|e|] srv1] tr1] eqn:Hinit;
    cbn [snd] in Htrace.
  - assert (Hquiet : forall ref l, ~ In (GOn ref (EConsole l)) tr1).
    { intros ref l. destruct Htrace as [-> | ->]; [intros [] |].
      intros [Hin|[Hin|[]]]; discriminate. }
    destruct (initWhatsAppClient_returns _ _ _ Hbound Hinit)
      as (ref0 & this & Href & Hthis & _).
    rewrite (onSenderInstance_run _ _ _ _ Href Hthis), sendMessage_delivery.
    cbn [fst snd default map].
    set (contact := requestContact body phone message).
    pose proof (delivery_sent_iff contact "" (client this)) as Hsent.
    destruct (delivery_outcome contact "" (client this))
      as [[b Hb] | [Hb _]]; rewrite Hb in Hsent |- *; cbn [caughtResponse];
      intros [= <- <- <-]; split.
    + intros H200. destruct b; [| discriminate].
      destruct (proj1 Hsent eq_refl) as (n & p & Hin).
      exists ref0, n, p. apply in_app_iff. right. right.
      apply in_map_iff. eauto.
    + intros (ref & n & p & [Hin|[Hin|Hin]]%in_app_iff).
      * now apply Hquiet in Hin.
      * discriminate.
      * apply in_map_iff in Hin as (e' & [= _ ->] & Hin).
        assert (Htrue : Returns b = Returns true) by (apply Hsent; eauto).
        now injection Htrue as ->.
    + discriminate.
    + intros (ref & n & p & [Hin|[Hin|Hin]]%in_app_iff).
      * now apply Hquiet in Hin.
      * discriminate.
      * apply in_map_iff in Hin as (e' & [= _ ->] & Hin).
        assert (Htrue : Throws typeError = Returns true)
          by (apply Hsent; eauto).
        discriminate.
  - destruct e as [err| |]; cbn [caughtResponse]; [| | discriminate];
      (intros [= <- <- <-]; split; [discriminate |];
       intros (ref & n & p & Hin); destruct Htrace as [-> | ->];
       [destruct Hin |]; destruct Hin as [Hin|[Hin|[]]]; discriminate).
  - discriminate.
Qed.

(** A body is turned down, or it has a phone and a message. *)
Lemma postSendMessage_cases (body : Body) (srv : Server T) :
  postSendMessage body srv = (Returns badRequest, srv, [])
  \/ exists phone message,
      body_phone body = Some phone /\ JsString.truthy phone = true
      /\ body_message body = Some message /\ JsString.truthy message = true.
Proof.
  unfold postSendMessage.
  destruct (body_phone body) as [phone|]; [| now left].
  destruct (body_message body) as [message|]; [| now left].
  destruct (JsString.truthy phone) eqn:Hp; [| now left].
  destruct (JsString.truthy message) eqn:Hm; [| now left].
  right. now exists phone, message.
Qed.

(** With the sender in place, a request is a quiet piece. *)
Lemma postSendMessage_quiet (body : Body) (srv : Server T) (ref : nat) :
  senderInstance srv = Some ref ->
  quiet srv (postSendMessage body srv).1.2 (postSendMessage body srv).2.
Proof.
  intros Href.
  destruct (postSendMessage_cases body srv)
    as [-> | (phone & message & Hphone & Hp & Hmessage & Hm)];
    [apply quiet_refl |].
  rewrite (postSendMessage_valid _ _ _ _ Hphone Hp Hmessage Hm). cbv zeta.
  rewrite (initWhatsAppClient_again _ _ Href).
  pose proof (Quiet_deliver (requestContact body phone message) None srv)
    as Hq.
  destruct (onSenderInstance _ srv) as [[[[|]|e|] srv2] tr2]; exact Hq.
Qed.

(** X22.  A request never replaces the sender: when [senderInstance] is set,
    it is the same reference after the request, no object has been made and
    [initialize()] has not been called; when it is not set, at most one
    object is made.  The variable stays bound. *)
Theorem postSendMessage_keeps_sender (body : Body) (srv : Server T) :
  bound srv ->
  bound (postSendMessage body srv).1.2
  /\ (forall ref,
        senderInstance srv = Some ref ->
        senderInstance (postSendMessage body srv).1.2 = Some ref
        /\ length (heap (postSendMessage body srv).1.2) = length (heap srv)
        /\ List.filter isNew (postSendMessage body srv).2 = []
        /\ List.filter isInitialize (postSendMessage body srv).2 = [])
  /\ (length (heap (postSendMessage body srv).1.2)
      <= S (length (heap srv)))%nat.
Proof.
  intros Hbound. destruct (senderInstance srv) as [ref|] eqn:Href.
  - destruct (postSendMessage_quiet body srv ref Href) as (Hs & Hl & Hn & Hi).
    split; [eapply quiet_bound; [| exact Hbound]; repeat split; eauto |].
    split; [| lia]. intros ref' [= <-]. repeat split; congruence.
  - assert (Hgoal : bound (postSendMessage body srv).1.2
              /\ (length (heap (postSendMessage body srv).1.2)
                  <= S (length (heap srv)))%nat).
    { destruct (postSendMessage_cases body srv)
        as [-> | (phone & message & Hphone & Hp & Hmessage & Hm)];
        [cbn [fst snd]; split; [exact Hbound | lia] |].
      rewrite (postSendMessage_valid _ _ _ _ Hphone Hp Hmessage Hm). cbv zeta.
      destruct (initWhatsAppClient_sets srv Hbound)
        as (ref0 & _ & Hbound1 & Hlen1 & _).
      pose proof (Quiet_deliver (requestContact body phone message) None
                    (initWhatsAppClient srv).1.2) as Hq.
      destruct (initWhatsAppClient srv) as [[[[]|e|] srv1] tr1];
        cbn [fst snd] in *; try (split; assumption).
      destruct (onSenderInstance _ srv1) as [[r2 srv2] tr2].
      cbn [fst snd] in Hq.
      assert (Hboth : bound srv2
                      /\ (length (heap srv2) <= S (length (heap srv)))%nat).
      { split; [eapply quiet_bound; eassumption |].
        destruct Hq as (_ & -> & _). exact Hlen1. }
      destruct r2 as [[|]|e|]; exact Hboth. }
    destruct Hgoal as [Hb Hl]. split; [exact Hb |]. split; [| exact Hl].
    intros ref [=].
Qed.

(** X23.  A client that does not start is not started again.  The request
    that makes the sender is answered with status 500 and the error's
    message, and no delivery is tried; the sender stays in
    [senderInstance], and no later request makes an object or calls
    [initialize()]. *)
Theorem postSendMessage_start_fault (body : Body) (srv : Server T)
        (phone message : string) (e : JsError) (c1 : T) :
  senderInstance srv = None ->
  clientInitialize newClient = (Rejected e, c1) ->
  body_phone body = Some phone -> JsString.truthy phone = true ->
  body_message body = Some message -> JsString.truthy message = true ->
  let after := mkServer (Some (length (heap srv)))
                 (heap srv ++ [mkSender c1 []]) in
  postSendMessage body srv
  = (Returns (mkResponse 500 [("error", error_message e)]), after,
     [GNew (length (heap srv)); GOn (length (heap srv)) EInitialize])
  /\ forall body',
      senderInstance (postSendMessage body' after).1.2
      = Some (length (heap srv))
      /\ List.filter isNew (postSendMessage body' after).2 = []
      /\ List.filter isInitialize (postSendMessage body' after).2 = [].
Proof.
  intros Hnone Hinit Hphone Hp Hmessage Hm after. split.
  - rewrite (postSendMessage_valid _ _ _ _ Hphone Hp Hmessage Hm). cbv zeta.
    rewrite (initWhatsAppClient_first _ Hnone). cbv zeta. now rewrite Hinit.
  - intros body'.
    destruct (postSendMessage_quiet body' after (length (heap srv)) eq_refl)
      as (Hs & _ & Hn & Hi).
    now split.
Qed.

End GatewayMore.

(** ** Who waits *)

Section Waiters.

Context {T : Type} `{Session T}.

Lemma step_waiters (sys sys' : System T) :
  single sys ->
  (forall k c, callers sys !! S k = Some c -> c = Returned) ->
  step sys sys' ->
  forall k c, callers sys' !! S k = Some c -> c = Returned.
Proof.
  intros Hsingle Hrest Hstep.
  assert (Hfirst : forall k0 c0 c1 k c,
             callers sys !! k0 = Some c0 -> c0 <> Returned ->
             <[k0 := c1]> (callers sys) !! S k = Some c -> c = Returned).
  { intros k0 c0 c1 k c Hk0 Hc0 Hk. destruct k0 as [|k0].
    - rewrite list_lookup_insert_ne in Hk by discriminate. eauto.
    - apply Hrest in Hk0. contradiction. }
  destruct Hstep as [sys r srv tr c0 Hrun Hland
                    | sys k0 r srv tr c0 Hk0 Hrun Hland
                    | sys k0 r srv tr c0 Hk0 Hrun Hland
                    | sys k0 contact r srv tr Hk0 Hrun];
    cbn [callers]; intros k c Hk.
  - destruct Hsingle as [(_ & _ & Hcallers & _) | (Href & _)].
    + rewrite Hcallers in Hk. destruct k; discriminate.
    + rewrite (initEnter_again _ _ Href) in Hrun. injection Hrun as <- _ _.
      injection Hland as <-.
      apply lookup_app_Some in Hk as [Hk | [_ Hk]]; [eauto |].
      destruct (S k - length (callers sys))%nat as [|j]; [| discriminate].
      now injection Hk.
  - eapply Hfirst; [exact Hk0 | discriminate | exact Hk].
  - eapply Hfirst; [exact Hk0 | discriminate | exact Hk].
  - eauto.
Qed.

(** X19.  Only the call that makes the sender ever waits for the client, and
    only that call sees the client fail: however calls interleave, every
    other call has returned as soon as it was made. *)
Theorem only_first_call_waits (sys : System T) :
  rtc step boot sys ->
  forall k c, callers sys !! S k = Some c -> c = Returned.
Proof.
  intros Hreach.
  assert (Hboth : single sys
                  /\ forall k c, callers sys !! S k = Some c -> c = Returned).
  { revert sys Hreach. apply rtc_ind_r.
    - split; [left; repeat split |]. intros k c Hk. discriminate.
    - intros sys sys' _ Hstep [Hsingle Hrest].
      split; [eapply step_single | eapply step_waiters]; eassumption. }
  apply Hboth.
Qed.

End Waiters.

(** The client does not start: the first call fails, the second has
    returned. *)
Lemma only_first_call_waits_dead :
  rtc step boot deadTwoCalls
  /\ callers deadTwoCalls !! 0%nat = Some (Raised launchError)
  /\ forall k c, callers deadTwoCalls !! S k = Some c -> c = Returned.
Proof.
  assert (Hreach : rtc step boot deadTwoCalls).
  { eapply rtc_l.
    { eapply (step_call boot); [reflexivity | reflexivity]. }
    eapply rtc_l.
    { eapply step_call; [reflexivity | reflexivity]. }
    eapply rtc_l.
    { eapply (step_initialized _ 0%nat);
        [reflexivity | reflexivity | reflexivity]. }
    apply rtc_refl. }
  split; [exact Hreach |]. split; [reflexivity |].
  apply (only_first_call_waits deadTwoCalls Hreach).
Defined.

Lemma bound_loadedDead : bound loadedDead.
Proof. intros ref Href. discriminate. Qed.

(** The client does not start; the next call returns at once. *)
Lemma initWhatsAppClient_once_dead :
  bound loadedDead
  /\ initWhatsAppClient loadedDead
     = (Throws launchError, mkServer (Some 0%nat) [mkSender Dead []],
        [GNew 0; GOn 0 EInitialize])
  /\ senderInstance (initWhatsAppClient loadedDead).1.2 <> None
  /\ bound (initWhatsAppClient loadedDead).1.2
  /\ initWhatsAppClient (initWhatsAppClient loadedDead).1.2
     = (Returns tt, (initWhatsAppClient loadedDead).1.2, []).
Proof.
  split; [exact bound_loadedDead |]. split; [reflexivity |].
  apply (initWhatsAppClient_once loadedDead bound_loadedDead).
Defined.

(** The greeting is sent, the answer is 200. *)
Lemma postSendMessage_success_greeting :
  bound loaded
  /\ statusCode (mkResponse 200 [("status", "success");
                                 ("detail", "Message sent to Unknown")]) = 200
  /\ exists ref n p,
      In (GOn ref (EConsole (LogSent n p))) (postSendMessage greeting loaded).2.
Proof.
  split; [exact bound_loaded |]. split; [reflexivity |].
  apply (proj1 (postSendMessage_success greeting loaded _ _ _ bound_loaded
                  postSendMessage_greeting)).
  reflexivity.
Defined.

(** The request that makes the sender, and the sender after it. *)
Lemma postSendMessage_keeps_sender_greeting :
  bound loaded
  /\ bound (postSendMessage greeting loaded).1.2
  /\ senderInstance (postSendMessage greeting (postSendMessage greeting loaded).1.2).1.2
     = Some 0%nat
  /\ (length (heap (postSendMessage greeting loaded).1.2) <= 1)%nat.
Proof.
  destruct (postSendMessage_keeps_sender greeting loaded bound_loaded)
    as (Hbound & _ & Hlen).
  split; [exact bound_loaded |]. split; [exact Hbound |]. split; [| exact Hlen].
  destruct (postSendMessage_keeps_sender greeting
              (postSendMessage greeting loaded).1.2 Hbound)
    as (_ & Hsame & _).
  apply (Hsame 0%nat). reflexivity.
Defined.

(** The client does not start: one answer with the error, and no second
    try. *)
Lemma postSendMessage_start_fault_dead :
  postSendMessage greeting loadedDead
  = (Returns (mkResponse 500
                [("error", "Failed to launch the browser process")]),
     mkServer (Some 0%nat) [mkSender Dead []],
     [GNew 0; GOn 0 EInitialize])
  /\ forall body',
      senderInstance
        (postSendMessage body' (mkServer (Some 0%nat) [mkSender Dead []])).1.2
      = Some 0%nat
      /\ List.filter isNew
           (postSendMessage body' (mkServer (Some 0%nat) [mkSender Dead []])).2
         = []
      /\ List.filter isInitialize
           (postSendMessage body' (mkServer (Some 0%nat) [mkSender Dead []])).2
         = [].
Proof.
  assert (Hinit : clientInitialize (newClient : DeadClient)
                  = (Rejected launchError, Dead)) by reflexivity.
  assert (Hnone : senderInstance loadedDead = None) by reflexivity.
  assert (Hphone : body_phone greeting = Some "0812-345-67") by reflexivity.
  assert (Hp : JsString.truthy "0812-345-67" = true) by reflexivity.
  assert (Hmessage : body_message greeting = Some "Hi {name}, hi {name}")
    by reflexivity.
  assert (Hm : JsString.truthy "Hi {name}, hi {name}" = true) by reflexivity.
  apply (postSendMessage_start_fault greeting loadedDead "0812-345-67"
           "Hi {name}, hi {name}" launchError Dead Hnone Hinit Hphone Hp
           Hmessage Hm).
Defined.

Example postSendMessage_after_start_fault :
  postSendMessage greeting (mkServer (Some 0%nat) [mkSender Dead []])
  = (Returns (mkResponse 500
                [("status", "failed");
                 ("detail", "Failed to send message to Unknown")]),
     mkServer (Some 0%nat) [mkSender Dead []],
     [GOn 0 (ECall (mkContact "Unknown" "6281234567@c.us"
                      (Some "Hi {name}, hi {name}")) "");
      GOn 0 (EGetNumberId "6281234567@c.us");
      GOn 0 (EConsole (LogSendFailed "Unknown" "6281234567@c.us"
                         "Session closed"))]).
Proof. reflexivity. Qed.
